(** * reddit_scraper.py: a shallow embedding and its verified properties

    The program fetches the top posts of a list of subreddits through PRAW,
    turns every post into a dictionary, aggregates the dictionaries into a
    pandas DataFrame and writes it to an Excel or CSV file.

    PRAW, pandas, argparse and the operating system are collaborators of
    the script.  Their behaviour is either a field of the environment
    record [Env] (what a call returns or raises) or a small model of the
    value they hand back.  Everything the script itself does (control
    flow, the try/except boundary, dictionary construction, printing,
    file-name synthesis, dispatch on the extension) is translated from the
    source line by line. *)

From Stdlib Require Import ZArith String Ascii List Bool Lia.
From stdpp Require Import base option strings list gmap pretty.

Local Open Scope string_scope.
Local Open Scope Z_scope.

(** ** Python strings *)

Module PyStr.

(** [s.endswith(suffix)]: [len(suffix) <= len(s)] and the last
    [len(suffix)] characters of [s] are [suffix]. *)
Definition endswith (s suffix : string) : bool :=
  (String.length suffix <=? String.length s)%nat
  && String.eqb
       (String.substring (String.length s - String.length suffix)
                         (String.length suffix) s)
       suffix.

(** Python truthiness of a string: non-empty. *)
Definition truthy (s : string) : bool :=
  match s with
  | EmptyString => false
  | String _ _ => true
  end.

Definition is_sep (c : ascii) : bool := Ascii.eqb c "/"%char.

Fixpoint drop_while (f : ascii -> bool) (l : list ascii) : list ascii :=
  match l with
  | [] => []
  | c :: r => if f c then drop_while f r else l
  end.

(** [os.path.dirname] (posixpath):
    [i = p.rfind('/') + 1; head = p[:i];]
    [if head and head != '/'*len(head): head = head.rstrip('/')]. *)
Definition dirname (p : string) : string :=
  let head := rev (drop_while (fun c => negb (is_sep c))
                              (rev (list_ascii_of_string p))) in
  if forallb is_sep head
  then string_of_list_ascii head
  else string_of_list_ascii (rev (drop_while is_sep (rev head))).

(** The character of the last decimal digit of [n]. *)
Definition digit_char (n : Z) : ascii := ascii_of_nat (48 + Z.to_nat (n mod 10)).

(** One decimal digit. *)
Definition digit (n : Z) : string := String (digit_char n) EmptyString.

(** [%02d]-style fields of strftime ([%m %d %H %M %S]). *)
Definition pad2 (n : Z) : string := digit (n / 10) +:+ digit n.

(** [%Y] for a four-digit year. *)
Definition pad4 (n : Z) : string :=
  digit (n / 1000) +:+ digit (n / 100) +:+ digit (n / 10) +:+ digit n.

Definition is_digit (c : ascii) : bool :=
  (48 <=? nat_of_ascii c)%nat && (nat_of_ascii c <=? 57)%nat.

End PyStr.

(** ** Exceptions and results *)

(** The two classes of Python exceptions the script can meet:
    instances of [Exception] (everything PRAW, pandas and the OS raise),
    which [except Exception] catches, and [SystemExit], which argparse
    raises and [except Exception] does not catch. *)
Inductive exn : Type :=
| Exception (msg : string)
| SystemExit (code : Z).

Inductive res (A : Type) : Type :=
| Ok (a : A)
| Raise (e : exn).
Arguments Ok {A} a.
Arguments Raise {A} e.

(** ** The data model *)

(** A broken-down local time, as [datetime] holds it. *)
Record datetime : Type := mk_datetime {
  year : Z; month : Z; day : Z; hour : Z; minute : Z; second : Z
}.

(** Values stored in a post dictionary and in DataFrame cells. *)
Inductive value : Type :=
| VStr (s : string)
| VInt (z : Z)
| VBool (b : bool)
| VDatetime (d : datetime)
| VNaN.

(** A Python dict from string keys: insertion-ordered, keys unique. *)
Definition dict : Type := list (string * value).

Fixpoint dict_get (d : dict) (k : string) : option value :=
  match d with
  | [] => None
  | (k', v) :: r => if String.eqb k' k then Some v else dict_get r k
  end.

(** [d[k] = v]: replace in place when the key exists, append otherwise. *)
Fixpoint dict_set (d : dict) (k : string) (v : value) : dict :=
  match d with
  | [] => [(k, v)]
  | (k', v') :: r =>
      if String.eqb k' k then (k', v) :: r else (k', v') :: dict_set r k v
  end.

Definition dict_keys (d : dict) : list string := map fst d.

(** *** PRAW objects *)

Module praw.

Record Redditor : Type := { name : string }.

(** A submission as the listing returns it.  [created_utc] is the epoch
    in seconds (PRAW hands it over as a float; the script only passes it
    to [datetime.fromtimestamp]); [author] is [None] for a removed
    account, and a [Redditor] object is truthy. *)
Record Submission : Type := {
  id : string;
  title : string;
  score : Z;
  num_comments : Z;
  created_utc : Z;
  url : string;
  permalink : string;
  is_self : bool;
  selftext : string;
  author : option Redditor
}.

(** What iterating [subreddit.top(...)] does: it yields posts one by one
    and either ends or raises (when the listing is created, on its first
    request or on a later page). *)
Inductive Listing : Type :=
| Exhausted
| Yield (post : Submission) (rest : Listing)
| Fails (e : exn).

Record Subreddit : Type := {
  top : string -> Z -> Listing   (* top(time_filter=..., limit=...) *)
}.

Record Reddit : Type := {
  subreddit : string -> res Subreddit   (* reddit.subreddit(name) *)
}.

End praw.

(** *** pandas *)

Module pd.

(** pandas is not part of the repository; the module holds what the script
    relies on.  A DataFrame with the default integer index: the column
    labels and one list of cells per row. *)
Record DataFrame : Type := {
  columns : list string;
  rows : list (list value)
}.

(** Labels in order of first appearance. *)
Fixpoint first_seen (seen l : list string) : list string :=
  match l with
  | [] => []
  | k :: r =>
      if existsb (String.eqb k) seen then first_seen seen r
      else k :: first_seen (k :: seen) r
  end.

(** [pd.DataFrame(list_of_dicts)], here [pd.from_records]: the columns are the keys in order of
    first appearance, a key missing from a dict gives NaN. *)
Definition from_records (data : list dict) : DataFrame :=
  let cols := first_seen [] (concat (map dict_keys data)) in
  {| columns := cols;
     rows := map (fun d => map (fun c => default VNaN (dict_get d c)) cols) data |}.

(** [pd.DataFrame()] with no argument *)
Definition no_data : DataFrame := {| columns := []; rows := [] |}.

(** [df.empty]: some axis has length 0. *)
Definition empty (df : DataFrame) : bool :=
  (length (columns df) =? 0)%nat || (length (rows df) =? 0)%nat.

Inductive kind : Type := Excel | Csv.

Definition table : Type := list (list value).

(** Modelled from the spec: what [DataFrame.to_excel] and
    [DataFrame.to_csv] of pandas (not part of the repository) put in the
    file.  The table is a header row of the column labels followed by one
    row per record; with [index=True] every row is preceded by its row
    number and the header by an empty label. *)
Definition to_table (df : DataFrame) (index : bool) : table :=
  let header := map VStr (columns df) in
  if index
  then (VStr "" :: header)
         :: imap (fun i r => VInt (Z.of_nat i) :: r) (rows df)
  else header :: rows df.

End pd.

(** ** The world the script runs in *)

Inductive node : Type :=
| Dir
| File (k : pd.kind) (t : pd.table).

Record World : Type := mk_World {
  stdout : list string;          (* lines printed so far *)
  clock : Z;                     (* seconds since the epoch *)
  fs : gmap string node          (* the paths that exist *)
}.

Record Namespace : Type := {
  subreddits : list string;
  limit : Z;
  time_filter : string;
  output : option string;
  client_id : string;
  client_secret : string;
  user_agent : string
}.

(** The collaborators' answers.  [localtime] serves both
    [datetime.fromtimestamp(t)] and [datetime.now()] (at the clock's
    reading); [fromtimestamp_error t] is [str(e)] of the [OverflowError],
    [OSError] or [ValueError] that [datetime.fromtimestamp(t)] raises when
    [t] is out of range; [makedirs_partial d] is the number of
    levels above [d], from the top, that a failing [os.makedirs(d)] has
    gone through, creating the missing ones, before it raises. *)
Record Env : Type := {
  localtime : Z -> datetime;                      (* the local time zone *)
  fromtimestamp_error : Z -> option string;       (* fromtimestamp fails? *)
  makedirs_error : string -> option exn;          (* os.makedirs fails?  *)
  makedirs_partial : string -> nat;               (* levels done before failing *)
  write_error : pd.kind -> string -> option exn;     (* the file write fails? *)
  parse_args : list string -> res Namespace;      (* argparse *)
  praw_Reddit : string -> string -> string -> res praw.Reddit
}.

(** ** The monad of script fragments: state and exceptions.
    Effects performed before a raise persist. *)

Definition M (A : Type) : Type := World -> res A * World.

Definition ret {A} (a : A) : M A := fun w => (Ok a, w).

Definition bind {A B} (m : M A) (k : A -> M B) : M B :=
  fun w =>
    match m w with
    | (Ok a, w') => k a w'
    | (Raise e, w') => (Raise e, w')
    end.

Definition raise {A} (e : exn) : M A := fun w => (Raise e, w).

Definition lift {A} (r : res A) : M A := fun w => (r, w).

#[global] Instance M_ret : MRet M := @ret.
#[global] Instance M_bind : MBind M := fun A B k m => bind m k.

(** [try: body  except Exception as e: handler(str(e))] *)
Definition try_except {A} (body : M A) (handler : string -> M A) : M A :=
  fun w =>
    match body w with
    | (Raise (Exception msg), w') => handler msg w'
    | r => r
    end.

Definition print (line : string) : M unit :=
  fun w => (Ok tt, mk_World (stdout w ++ [line]) (clock w) (fs w)).

(** [time.sleep(secs)] *)
Definition sleep (secs : Z) : M unit :=
  fun w => (Ok tt, mk_World (stdout w) (clock w + secs) (fs w)).

(** [datetime.now()] *)
Definition now (env : Env) : M datetime :=
  fun w => (Ok (localtime env (clock w)), w).

(** [dt.strftime("%Y%m%d_%H%M%S")] *)
Definition strftime (dt : datetime) : string :=
  PyStr.pad4 (year dt) +:+ PyStr.pad2 (month dt) +:+ PyStr.pad2 (day dt)
  +:+ "_" +:+ PyStr.pad2 (hour dt) +:+ PyStr.pad2 (minute dt)
  +:+ PyStr.pad2 (second dt).

(** [os.path.exists(p)] *)
Definition path_exists (p : string) : M bool :=
  fun w => (Ok (bool_decide (is_Some (fs w !! p))), w).

(** The directory and its ancestors, nearest first. *)
Fixpoint ancestors (fuel : nat) (d : string) : list string :=
  match fuel with
  | O => []
  | S n =>
      if forallb PyStr.is_sep (list_ascii_of_string d) then []
      else d :: ancestors n (PyStr.dirname d)
  end.

Definition mkdir (m : gmap string node) (d : string) : gmap string node :=
  match m !! d with
  | Some _ => m
  | None => <[d := Dir]> m
  end.

(** [os.makedirs(d)]: creates [d] and the ancestors that are missing,
    from the top down.  When it raises, the directories it created above
    [d] before the failing step remain. *)
Definition makedirs (env : Env) (d : string) : M unit :=
  fun w =>
    match makedirs_error env d with
    | Some e =>
        (Raise e, mk_World (stdout w) (clock w)
                    (foldl mkdir (fs w)
                       (take (makedirs_partial env d)
                             (rev (tail (ancestors (S (String.length d)) d))))))
    | None =>
        (Ok tt, mk_World (stdout w) (clock w)
                  (foldl mkdir (fs w) (ancestors (S (String.length d)) d)))
    end.

(** The file write shared by [to_excel] and [to_csv]. *)
Definition write_file (env : Env) (k : pd.kind) (p : string) (t : pd.table) : M unit :=
  fun w =>
    match write_error env k p with
    | Some e => (Raise e, w)
    | None => (Ok tt, mk_World (stdout w) (clock w) (<[p := File k t]> (fs w)))
    end.

(** [df.to_excel(path, index=index)] *)
Definition to_excel (env : Env) (df : pd.DataFrame) (p : string) (index : bool) : M unit :=
  write_file env pd.Excel p (pd.to_table df index).

(** [df.to_csv(path, index=index)] *)
Definition to_csv (env : Env) (df : pd.DataFrame) (p : string) (index : bool) : M unit :=
  write_file env pd.Csv p (pd.to_table df index).

(** ** The scraper *)

(** [class RedditScraper]: the instance holds the PRAW client. *)
Record RedditScraper : Type := { reddit : praw.Reddit }.

(** [RedditScraper.__init__] *)
Definition RedditScraper_init (env : Env) (client_id client_secret user_agent : string)
  : M RedditScraper :=
  r ← lift (praw_Reddit env client_id client_secret user_agent);
  mret {| reddit := r |}.

(** [datetime.fromtimestamp(t)] on line 48: the local time of the epoch,
    or the error raised for an epoch out of range (an instance of
    [Exception]). *)
Definition fromtimestamp (env : Env) (t : Z) : M datetime :=
  match fromtimestamp_error env t with
  | Some str_e => raise (Exception str_e)
  | None => mret (localtime env t)
  end.

(** The body of the [for post in ...] loop of [get_top_posts], up to the
    [append]: the dictionary built from one post, once
    [datetime.fromtimestamp] on line 48 has returned. *)
Definition post_data (env : Env) (subreddit_name : string) (post : praw.Submission) : dict :=
  let post_data : dict :=
    [ ("subreddit", VStr subreddit_name);
      ("post_id", VStr (praw.id post));
      ("title", VStr (praw.title post));
      ("score", VInt (praw.score post));
      ("num_comments", VInt (praw.num_comments post));
      ("created_utc", VDatetime (localtime env (praw.created_utc post)));
      ("url", VStr (praw.url post));
      ("permalink", VStr ("https://www.reddit.com" +:+ praw.permalink post));
      ("is_self_post", VBool (praw.is_self post)) ] in
  let post_data :=
    if praw.is_self post
    then dict_set post_data "selftext" (VStr (praw.selftext post))
    else dict_set post_data "selftext" (VStr "") in
  match praw.author post with
  | Some a => dict_set post_data "author" (VStr (praw.name a))
  | None => dict_set post_data "author" (VStr "[deleted]")
  end.

(** [for post in subreddit.top(...): ... posts.append(post_data)]: the
    conversion of the creation time on line 48 may raise before the
    dictionary is appended. *)
Fixpoint for_post (env : Env) (subreddit_name : string) (it : praw.Listing)
    (posts : list dict) : M (list dict) :=
  match it with
  | praw.Exhausted => mret posts
  | praw.Yield post rest =>
      _ ← fromtimestamp env (praw.created_utc post);
      for_post env subreddit_name rest (posts ++ [post_data env subreddit_name post])
  | praw.Fails e => raise e
  end.

Definition get_top_posts (env : Env) (self : RedditScraper) (subreddit_name : string)
    (limit : Z) (time_filter : string) : M (list dict) :=
  subreddit ← lift (praw.subreddit (reddit self) subreddit_name);
  try_except
    (posts ← for_post env subreddit_name (praw.top subreddit time_filter limit) [];
     print ("Successfully scraped " +:+ pretty (length posts)
            +:+ " posts from r/" +:+ subreddit_name);;
     mret posts)
    (fun str_e =>
       print ("Error scraping r/" +:+ subreddit_name +:+ ": " +:+ str_e);;
       mret []).

(** [for subreddit in subreddit_list: ...] with [all_posts] as accumulator. *)
Fixpoint for_subreddit (env : Env) (self : RedditScraper) (subreddit_list : list string)
    (limit : Z) (time_filter : string) (all_posts : list dict) : M (list dict) :=
  match subreddit_list with
  | [] => mret all_posts
  | subreddit :: rest =>
      print ("Scraping r/" +:+ subreddit +:+ "...");;
      posts ← get_top_posts env self subreddit limit time_filter;
      sleep 2;;
      for_subreddit env self rest limit time_filter (all_posts ++ posts)
  end.

Definition scrape_multiple_subreddits (env : Env) (self : RedditScraper)
    (subreddit_list : list string) (limit : Z) (time_filter : string) : M pd.DataFrame :=
  all_posts ← for_subreddit env self subreddit_list limit time_filter [];
  match all_posts with
  | _ :: _ => mret (pd.from_records all_posts)
  | [] => print "No posts were collected.";; mret pd.no_data
  end.

(** Lines 125-128 of both exporters:
    [if output_dir and not os.path.exists(output_dir): os.makedirs(output_dir)] *)
Definition ensure_dir (env : Env) (output_file : string) : M unit :=
  let output_dir := PyStr.dirname output_file in
  if PyStr.truthy output_dir
  then ex ← path_exists output_dir;
       if negb ex then makedirs env output_dir else mret tt
  else mret tt.

Definition save_to_excel (env : Env) (df : pd.DataFrame) (output_file : option string)
  : M (option string) :=
  if pd.empty df
  then print "No data to save.";; mret None
  else
    output_file ←
      match output_file with
      | None =>
          dt ← now env;
          mret ("reddit_top_posts_" +:+ strftime dt +:+ ".xlsx")
      | Some f => mret f
      end;
    ensure_dir env output_file;;
    to_excel env df output_file false;;
    print ("Data saved to " +:+ output_file);;
    mret (Some output_file).

Definition save_to_csv (env : Env) (df : pd.DataFrame) (output_file : option string)
  : M (option string) :=
  if pd.empty df
  then print "No data to save.";; mret None
  else
    output_file ←
      match output_file with
      | None =>
          dt ← now env;
          mret ("reddit_top_posts_" +:+ strftime dt +:+ ".csv")
      | Some f => mret f
      end;
    ensure_dir env output_file;;
    to_csv env df output_file false;;
    print ("Data saved to " +:+ output_file);;
    mret (Some output_file).

(** Lines 203-214 of [main]: the choice of the exporter.  [if args.output]
    tests truthiness: [None] and the empty string both take the [else]. *)
Definition save_results (env : Env) (df : pd.DataFrame)
    (args_output : option string) : M unit :=
  match args_output with
  | Some out =>
      if PyStr.truthy out then
        if PyStr.endswith out ".xlsx" then
          save_to_excel env df (Some out);; mret tt
        else if PyStr.endswith out ".csv" then
          save_to_csv env df (Some out);; mret tt
        else
          print "Unsupported output format. Using CSV format.";;
          save_to_csv env df (Some (out +:+ ".csv"));; mret tt
      else save_to_excel env df None;; mret tt
  | None => save_to_excel env df None;; mret tt
  end.

Definition main (env : Env) (argv : list string) : M unit :=
  args ← lift (parse_args env argv);
  scraper ← RedditScraper_init env (client_id args) (client_secret args) (user_agent args);
  df ← scrape_multiple_subreddits env scraper (subreddits args) (limit args)
         (time_filter args);
  save_results env df (output args).

(** The exit status of the interpreter after [main()]. *)
Definition exit_status (r : res unit) : Z :=
  match r with
  | Ok _ => 0
  | Raise (SystemExit code) => code
  | Raise (Exception _) => 1
  end.

(** ** Auxiliary definitions used by the statements *)

(** The listing that yields [posts] in order and then behaves as [tail]. *)
Fixpoint yields (posts : list praw.Submission) (tail : praw.Listing) : praw.Listing :=
  match posts with
  | [] => tail
  | p :: r => praw.Yield p (yields r tail)
  end.

(** A listing whose failure, if any, is an instance of [Exception]. *)
Fixpoint catchable (it : praw.Listing) : bool :=
  match it with
  | praw.Exhausted => true
  | praw.Yield _ rest => catchable rest
  | praw.Fails (Exception _) => true
  | praw.Fails (SystemExit _) => false
  end.

(** The fetch of forum [n] returns the records [recs]. *)
Definition fetched (env : Env) (self : RedditScraper) (lim : Z) (tf : string)
    (w : World) (n : string) (recs : list dict) : Prop :=
  fst (get_top_posts env self n lim tf w) = Ok recs.

(** The keys of every post dictionary, in insertion order. *)
Definition field_names : list string :=
  [ "subreddit"; "post_id"; "title"; "score"; "num_comments"; "created_utc";
    "url"; "permalink"; "is_self_post"; "selftext"; "author" ].

Definition printed (w : World) (lines : list string) : World :=
  mk_World (stdout w ++ lines) (clock w) (fs w).

Definition slept (w : World) (secs : Z) : World :=
  mk_World (stdout w) (clock w + secs) (fs w).

Definition written (w : World) (p : string) (k : pd.kind) (t : pd.table) : World :=
  mk_World (stdout w) (clock w) (<[p := File k t]> (fs w)).

(** The exporter for an output kind, and the extension of its default
    file name. *)
Definition save_as (k : pd.kind) : Env -> pd.DataFrame -> option string -> M (option string) :=
  match k with
  | pd.Excel => save_to_excel
  | pd.Csv => save_to_csv
  end.

Definition extension (k : pd.kind) : string :=
  match k with
  | pd.Excel => ".xlsx"
  | pd.Csv => ".csv"
  end.

Definition default_name (env : Env) (w : World) (k : pd.kind) : string :=
  "reddit_top_posts_" +:+ strftime (localtime env (clock w)) +:+ extension k.

(** No ['/'] in the string. *)
Definition no_sep (s : string) : bool :=
  forallb (fun c => negb (PyStr.is_sep c)) (list_ascii_of_string s).

(** The value of a string of decimal digits. *)
Definition digits_value (s : string) : Z :=
  fold_left (fun acc c => acc * 10 + (Z.of_nat (nat_of_ascii c) - 48))
            (list_ascii_of_string s) 0.

(** Fifteen characters: eight digits, an underscore, six digits. *)
Definition timestamp_shape (s : string) : bool :=
  match list_ascii_of_string s with
  | [y1; y2; y3; y4; m1; m2; d1; d2; u; h1; h2; n1; n2; s1; s2] =>
      forallb PyStr.is_digit [y1; y2; y3; y4; m1; m2; d1; d2; h1; h2; n1; n2; s1; s2]
      && Ascii.eqb u "_"%char
  | _ => false
  end.

(** The fields read back from a timestamp laid out as [YYYYMMDD_HHMMSS]. *)
Definition timestamp_fields (s : string) : datetime :=
  mk_datetime (digits_value (String.substring 0 4 s))
              (digits_value (String.substring 4 2 s))
              (digits_value (String.substring 6 2 s))
              (digits_value (String.substring 9 2 s))
              (digits_value (String.substring 11 2 s))
              (digits_value (String.substring 13 2 s)).

(** A date and time that [datetime.now()] can return in a four-digit year. *)
Definition four_digit_year (dt : datetime) : Prop :=
  1000 <= year dt <= 9999 /\ 1 <= month dt <= 12 /\ 1 <= day dt <= 31 /\
  0 <= hour dt <= 23 /\ 0 <= minute dt <= 59 /\ 0 <= second dt <= 59.

(** The file system after lines 125-128 of an exporter, when
    [os.makedirs] raises nothing: the directory [d] of the destination and
    its missing ancestors are created if [d] is non-empty and absent. *)
Definition dirs_ensured (m : gmap string node) (d : string) : gmap string node :=
  if PyStr.truthy d && negb (bool_decide (is_Some (m !! d)))
  then foldl mkdir m (ancestors (S (String.length d)) d)
  else m.

(** The creation time of the post converts: line 48 raises nothing. *)
Definition convertible (env : Env) (post : praw.Submission) : Prop :=
  fromtimestamp_error env (praw.created_utc post) = None.

(** A directory name with a character other than ['/']: neither empty nor
    the root. *)
Definition proper_dir (d : string) : bool :=
  negb (forallb PyStr.is_sep (list_ascii_of_string d)).

(** ** A concrete run, used to exercise the statements *)

Module Sample.

Definition link_post : praw.Submission :=
  {| praw.id := "a1"; praw.title := "A link"; praw.score := 10;
     praw.num_comments := 3; praw.created_utc := 1700000000;
     praw.url := "http://example.org/x"; praw.permalink := "/r/coq/a1";
     praw.is_self := false; praw.selftext := "stray text";
     praw.author := None |}.

Definition text_post : praw.Submission :=
  {| praw.id := "a2"; praw.title := "A question"; praw.score := 7;
     praw.num_comments := 0; praw.created_utc := 1700000001;
     praw.url := "https://www.reddit.com/r/coq/a2"; praw.permalink := "/r/coq/a2";
     praw.is_self := true; praw.selftext := "body";
     praw.author := Some {| praw.name := "bob" |} |}.

(** A post dated 1 January 10000, beyond what [datetime] can hold. *)
Definition undated_post : praw.Submission :=
  {| praw.id := "a3"; praw.title := "From the future"; praw.score := 1;
     praw.num_comments := 0; praw.created_utc := 253402300800;
     praw.url := "http://example.org/y"; praw.permalink := "/r/coq/a3";
     praw.is_self := false; praw.selftext := "";
     praw.author := None |}.

(** A forum whose second post has a creation time that does not convert. *)
Definition undated : praw.Subreddit :=
  {| praw.top := fun _ _ => yields [link_post; undated_post; text_post] praw.Exhausted |}.

(** [datetime.fromtimestamp] refuses epochs from the year 10000 on. *)
Definition conversion_error (t : Z) : option string :=
  if 253402300800 <=? t then Some "year 10000 is out of range" else None.

(** A forum with two posts. *)
Definition healthy : praw.Subreddit :=
  {| praw.top := fun _ _ => yields [link_post; text_post] praw.Exhausted |}.

(** A forum whose listing breaks after its first post. *)
Definition flaky : praw.Subreddit :=
  {| praw.top := fun _ _ => yields [link_post] (praw.Fails (Exception "received 503 HTTP response")) |}.

(** A forum without posts. *)
Definition quiet : praw.Subreddit :=
  {| praw.top := fun _ _ => praw.Exhausted |}.

(** A client for which obtaining the handle of "random" needs a request
    that fails; every other handle is obtained without one. *)
Definition client : praw.Reddit :=
  {| praw.subreddit := fun n =>
       if String.eqb n "random" then Raise (Exception "connection refused")
       else if String.eqb n "flaky" then Ok flaky
       else if String.eqb n "quiet" then Ok quiet
       else if String.eqb n "undated" then Ok undated
       else Ok healthy |}.

Definition scraper : RedditScraper := {| reddit := client |}.

Definition args (subs : list string) (out : option string) : Namespace :=
  {| subreddits := subs; limit := 25; time_filter := "week"; output := out;
     client_id := "id"; client_secret := "secret";
     user_agent := "RedditScraper/1.0" |}.

(** The forum names up to the next option, and what follows them. *)
Fixpoint names_then (argv : list string) : list string * list string :=
  match argv with
  | [] => ([], [])
  | a :: r =>
      if String.prefix "--" a then ([], argv)
      else let '(names, rest) := names_then r in (a :: names, rest)
  end.

(** The parser on the command lines
    [--subreddits NAME... --client-id id --client-secret secret]
    with or without a final [--output PATH]; any other command line is
    refused with status 2. *)
Definition parse (argv : list string) : res Namespace :=
  match argv with
  | "--subreddits" :: r =>
      match names_then r with
      | ((_ :: _) as subs, ["--client-id"; "id"; "--client-secret"; "secret"]) =>
          Ok (args subs None)
      | ((_ :: _) as subs,
         ["--client-id"; "id"; "--client-secret"; "secret"; "--output"; out]) =>
          Ok (args subs (Some out))
      | _ => Raise (SystemExit 2)
      end
  | _ => Raise (SystemExit 2)
  end.

(** The command line for the forums [subs] and the destination [out]. *)
Definition argv (subs : list string) (out : option string) : list string :=
  ("--subreddits" :: subs ++ ["--client-id"; "id"; "--client-secret"; "secret"])
  ++ match out with Some o => ["--output"; o] | None => [] end.

Definition clock_reading (t : Z) : datetime := mk_datetime 2024 1 2 3 4 (t mod 60).

(** Every file-system operation succeeds. *)
Definition env : Env :=
  {| localtime := clock_reading;
     fromtimestamp_error := conversion_error;
     makedirs_error := fun _ => None;
     makedirs_partial := fun _ => 0%nat;
     write_error := fun _ _ => None;
     parse_args := parse;
     praw_Reddit := fun _ _ _ => Ok client |}.

(** Nothing below [/srv] can be written. *)
Definition readonly_env : Env :=
  {| localtime := clock_reading;
     fromtimestamp_error := conversion_error;
     makedirs_error := fun _ => None;
     makedirs_partial := fun _ => 0%nat;
     write_error := fun _ p =>
       if String.prefix "/srv/" p then Some (Exception "Permission denied") else None;
     parse_args := parse;
     praw_Reddit := fun _ _ _ => Ok client |}.

(** The quota runs out while the directories are made: [out] is created,
    [out/2024] is not. *)
Definition quota_env : Env :=
  {| localtime := clock_reading;
     fromtimestamp_error := conversion_error;
     makedirs_error := fun d =>
       if String.eqb d "out/2024" then Some (Exception "Disk quota exceeded") else None;
     makedirs_partial := fun _ => 1%nat;
     write_error := fun _ _ => None;
     parse_args := parse;
     praw_Reddit := fun _ _ _ => Ok client |}.

Definition w0 : World := mk_World [] 5 ∅.

Definition frame : pd.DataFrame :=
  pd.from_records [post_data env "coq" link_post; post_data env "coq" text_post].

End Sample.

(** ** Basic facts *)

Ltac run :=
  unfold mbind, M_bind, bind, mret, M_ret, ret, lift, raise, print, sleep, now,
    try_except in *.

(** One turn of the loop: the conversion on line 48, then the append. *)
Lemma for_post_yield env n post rest acc w :
  for_post env n (praw.Yield post rest) acc w
  = match fromtimestamp_error env (praw.created_utc post) with
    | Some str_e => (Raise (Exception str_e), w)
    | None => for_post env n rest (acc ++ [post_data env n post]) w
    end.
Proof.
  cbn [for_post]. unfold fromtimestamp. run.
  destruct (fromtimestamp_error env (praw.created_utc post)); reflexivity.
Qed.

Lemma for_post_yields env n posts :
  Forall (convertible env) posts ->
  forall tail acc w,
    for_post env n (yields posts tail) acc w
    = for_post env n tail (acc ++ map (post_data env n) posts) w.
Proof.
  induction 1 as [|p r Hp _ IH]; intros tail acc w; cbn [yields map].
  - by rewrite app_nil_r.
  - rewrite for_post_yield, Hp, IH. by rewrite <- app_assoc.
Qed.

(** [for_post] only reads the world. *)
Lemma for_post_world env n it : forall acc w, snd (for_post env n it acc w) = w.
Proof.
  induction it as [| p r IH | e]; intros acc w; [reflexivity | | reflexivity].
  rewrite for_post_yield.
  destruct (fromtimestamp_error env (praw.created_utc p)); [reflexivity | apply IH].
Qed.

Lemma for_post_value env n it : forall acc w w',
  fst (for_post env n it acc w) = fst (for_post env n it acc w').
Proof.
  induction it as [| p r IH | e]; intros acc w w'; [reflexivity | | reflexivity].
  rewrite !for_post_yield.
  destruct (fromtimestamp_error env (praw.created_utc p)); [reflexivity | apply IH].
Qed.

(** A listing that ends in an [Exception] makes the loop raise an
    [Exception]: that of the listing when every post before it converts,
    that of the first failing conversion otherwise. *)
Lemma for_post_fails env n msg posts :
  exists str_e,
    (forall acc w,
       for_post env n (yields posts (praw.Fails (Exception msg))) acc w
       = (Raise (Exception str_e), w)) /\
    (Forall (convertible env) posts -> str_e = msg).
Proof.
  induction posts as [|p r (str_e & IH & Hm)]; cbn [yields].
  - exists msg. split; [reflexivity | reflexivity].
  - destruct (fromtimestamp_error env (praw.created_utc p)) as [m|] eqn:E.
    + exists m. split.
      * intros acc w. by rewrite for_post_yield, E.
      * intros H. inversion H as [|? ? Hp _]; subst. unfold convertible in Hp.
        congruence.
    + exists str_e. split.
      * intros acc w. by rewrite for_post_yield, E.
      * intros H. inversion H; subst. auto.
Qed.

(** A listing that ends normally returns one record per post, in order. *)
Lemma get_top_posts_exhausted env self n lim tf sub posts w :
  praw.subreddit (reddit self) n = Ok sub ->
  praw.top sub tf lim = yields posts praw.Exhausted ->
  Forall (convertible env) posts ->
  get_top_posts env self n lim tf w
  = (Ok (map (post_data env n) posts),
     printed w ["Successfully scraped " +:+ pretty (length posts)
                +:+ " posts from r/" +:+ n]).
Proof.
  intros Hs Ht Hc. unfold get_top_posts. run. rewrite Hs, Ht.
  rewrite (for_post_yields env n posts Hc). simpl. by rewrite length_map.
Qed.

(** A listing that raises an [Exception] returns the empty list. *)
Lemma get_top_posts_fails env self n lim tf sub posts msg :
  praw.subreddit (reddit self) n = Ok sub ->
  praw.top sub tf lim = yields posts (praw.Fails (Exception msg)) ->
  exists str_e,
    (forall w,
       get_top_posts env self n lim tf w
       = (Ok [], printed w ["Error scraping r/" +:+ n +:+ ": " +:+ str_e])) /\
    (Forall (convertible env) posts -> str_e = msg).
Proof.
  intros Hs Ht. destruct (for_post_fails env n msg posts) as (str_e & Hf & Hm).
  exists str_e. split; [|exact Hm].
  intros w. unfold get_top_posts. run. rewrite Hs, Ht, Hf. reflexivity.
Qed.

(** The value [get_top_posts] returns does not depend on the world. *)
Lemma get_top_posts_value env self n lim tf w w' :
  fst (get_top_posts env self n lim tf w) = fst (get_top_posts env self n lim tf w').
Proof.
  unfold get_top_posts. run.
  destruct (praw.subreddit (reddit self) n) as [sub|e]; [|reflexivity].
  pose proof (for_post_value env n (praw.top sub tf lim) [] w w') as Hv.
  pose proof (for_post_world env n (praw.top sub tf lim) [] w) as Hw.
  pose proof (for_post_world env n (praw.top sub tf lim) [] w') as Hw'.
  destruct (for_post env n (praw.top sub tf lim) [] w) as [[a|[m|c]] w1],
           (for_post env n (praw.top sub tf lim) [] w') as [[a'|[m'|c']] w1'];
    simpl in *; congruence.
Qed.

(** ** The post record builder *)

(** C7. A post whose author is absent ([None]) gets the author
    ["[deleted]"]; a post with an author gets the author's name. *)
Theorem post_data_author env n post :
  (praw.author post = None ->
   dict_get (post_data env n post) "author" = Some (VStr "[deleted]")) /\
  (forall a, praw.author post = Some a ->
   dict_get (post_data env n post) "author" = Some (VStr (praw.name a))).
Proof.
  unfold post_data. split; [intros H | intros a H]; rewrite H;
    destruct (praw.is_self post); reflexivity.
Qed.

Lemma post_data_author_witness :
  (praw.author Sample.link_post = None /\
   dict_get (post_data Sample.env "coq" Sample.link_post) "author"
   = Some (VStr "[deleted]")) /\
  (praw.author Sample.text_post = Some {| praw.name := "bob" |} /\
   dict_get (post_data Sample.env "coq" Sample.text_post) "author"
   = Some (VStr "bob")).
Proof.
  split; (split; [reflexivity|]).
  - apply (proj1 (post_data_author Sample.env "coq" Sample.link_post)). reflexivity.
  - apply (proj2 (post_data_author Sample.env "coq" Sample.text_post)
             {| praw.name := "bob" |}). reflexivity.
Defined.

(** C8. A post that is not a self post gets the empty string as
    [selftext], whatever text the raw post carries; a self post gets the
    raw post's text. *)
Theorem post_data_selftext env n post :
  (praw.is_self post = false ->
   dict_get (post_data env n post) "selftext" = Some (VStr "")) /\
  (praw.is_self post = true ->
   dict_get (post_data env n post) "selftext" = Some (VStr (praw.selftext post))).
Proof.
  unfold post_data. split; intros H; rewrite H;
    destruct (praw.author post); reflexivity.
Qed.

Lemma post_data_selftext_witness :
  (praw.is_self Sample.link_post = false /\
   praw.selftext Sample.link_post = "stray text" /\
   dict_get (post_data Sample.env "coq" Sample.link_post) "selftext"
   = Some (VStr "")) /\
  (praw.is_self Sample.text_post = true /\
   dict_get (post_data Sample.env "coq" Sample.text_post) "selftext"
   = Some (VStr "body")).
Proof.
  split; [split; [reflexivity | split; [reflexivity|]] | split; [reflexivity|]].
  - apply (proj1 (post_data_selftext Sample.env "coq" Sample.link_post)). reflexivity.
  - apply (proj2 (post_data_selftext Sample.env "coq" Sample.text_post)). reflexivity.
Defined.

(** ** The forum fetcher *)

(** C1. The code breaks the claim where the forum handle is obtained:
    the call on line 36 precedes the [try], so an error it raises, here a
    refused connection for the forum "random", leaves [get_top_posts]
    uncaught.  The fetcher reports nothing and returns no list, the batch
    stops before the next forum, and the records of the forums already
    fetched are lost. *)
Lemma get_top_posts_handle_error_escapes :
  praw.subreddit (reddit Sample.scraper) "random"
  = Raise (Exception "connection refused") /\
  get_top_posts Sample.env Sample.scraper "random" 25 "week" Sample.w0
  = (Raise (Exception "connection refused"), Sample.w0) /\
  scrape_multiple_subreddits Sample.env Sample.scraper ["random"; "coq"] 25 "week"
    Sample.w0
  = (Raise (Exception "connection refused"),
     printed Sample.w0 ["Scraping r/random..."]) /\
  fst (scrape_multiple_subreddits Sample.env Sample.scraper ["coq"; "random"] 25 "week"
         Sample.w0)
  = Raise (Exception "connection refused").
Proof. repeat split. Qed.

(** X14. Once the forum handle has been obtained, an [Exception] raised
    while the listing of top posts is requested or iterated is caught in
    [get_top_posts]: one diagnostic line with the error's text is printed,
    the fetch returns the empty list, and the loop of
    [scrape_multiple_subreddits] goes on with the remaining forums, its
    accumulator unchanged. *)
Theorem get_top_posts_isolates_listing_errors env self n lim tf sub posts msg :
  praw.subreddit (reddit self) n = Ok sub ->
  praw.top sub tf lim = yields posts (praw.Fails (Exception msg)) ->
  Forall (convertible env) posts ->
  (forall w,
     get_top_posts env self n lim tf w
     = (Ok [], printed w ["Error scraping r/" +:+ n +:+ ": " +:+ msg])) /\
  (forall rest all_posts w,
     for_subreddit env self (n :: rest) lim tf all_posts w
     = for_subreddit env self rest lim tf all_posts
         (slept (printed w ["Scraping r/" +:+ n +:+ "...";
                            "Error scraping r/" +:+ n +:+ ": " +:+ msg]) 2)).
Proof.
  intros Hs Ht Hc.
  destruct (get_top_posts_fails env self n lim tf sub posts msg Hs Ht)
    as (str_e & Hf & Hm).
  rewrite (Hm Hc) in Hf. split; [exact Hf|].
  intros rest acc w. cbn [for_subreddit]. run. rewrite Hf.
  unfold printed, slept. simpl. rewrite app_nil_r, <- app_assoc. reflexivity.
Qed.

Lemma get_top_posts_isolates_listing_errors_witness :
  praw.subreddit (reddit Sample.scraper) "flaky" = Ok Sample.flaky /\
  praw.top Sample.flaky "week" 25
  = yields [Sample.link_post] (praw.Fails (Exception "received 503 HTTP response")) /\
  Forall (convertible Sample.env) [Sample.link_post] /\
  get_top_posts Sample.env Sample.scraper "flaky" 25 "week" Sample.w0
  = (Ok [], printed Sample.w0 ["Error scraping r/flaky: received 503 HTTP response"]).
Proof.
  assert (Hc : Forall (convertible Sample.env) [Sample.link_post])
    by (repeat constructor).
  split; [reflexivity | split; [reflexivity | split; [exact Hc|]]].
  apply (proj1 (get_top_posts_isolates_listing_errors Sample.env Sample.scraper
                  "flaky" 25 "week" Sample.flaky [Sample.link_post]
                  "received 503 HTTP response" eq_refl eq_refl Hc)).
Defined.

(** X15. A post whose creation time [datetime.fromtimestamp] cannot
    convert ends the fetch inside the [try]: the error's text is printed
    and the empty list is returned, whatever records were built before the
    post and whatever the listing holds after it. *)
Theorem get_top_posts_conversion_error env self n lim tf sub before post rest str_e w :
  praw.subreddit (reddit self) n = Ok sub ->
  praw.top sub tf lim = yields before (praw.Yield post rest) ->
  Forall (convertible env) before ->
  fromtimestamp_error env (praw.created_utc post) = Some str_e ->
  get_top_posts env self n lim tf w
  = (Ok [], printed w ["Error scraping r/" +:+ n +:+ ": " +:+ str_e]).
Proof.
  intros Hs Ht Hc He. unfold get_top_posts. run. rewrite Hs, Ht.
  rewrite (for_post_yields env n before Hc), for_post_yield, He. reflexivity.
Qed.

Lemma get_top_posts_conversion_error_witness :
  praw.subreddit (reddit Sample.scraper) "undated" = Ok Sample.undated /\
  praw.top Sample.undated "week" 25
  = yields [Sample.link_post]
      (praw.Yield Sample.undated_post (yields [Sample.text_post] praw.Exhausted)) /\
  Forall (convertible Sample.env) [Sample.link_post] /\
  fromtimestamp_error Sample.env (praw.created_utc Sample.undated_post)
  = Some "year 10000 is out of range" /\
  get_top_posts Sample.env Sample.scraper "undated" 25 "week" Sample.w0
  = (Ok [], printed Sample.w0 ["Error scraping r/undated: year 10000 is out of range"]).
Proof.
  assert (Hc : Forall (convertible Sample.env) [Sample.link_post])
    by (repeat constructor).
  split; [reflexivity | split; [reflexivity | split; [exact Hc | split; [reflexivity|]]]].
  apply (get_top_posts_conversion_error Sample.env Sample.scraper "undated" 25 "week"
           Sample.undated [Sample.link_post] Sample.undated_post
           (yields [Sample.text_post] praw.Exhausted) "year 10000 is out of range"
           Sample.w0 eq_refl eq_refl Hc eq_refl).
Defined.

(** C10. When the listing raises after some posts have been turned into
    records, [get_top_posts] returns the empty list, not the records built
    so far. *)
Theorem get_top_posts_no_partial_result env self n lim tf sub post posts msg w :
  praw.subreddit (reddit self) n = Ok sub ->
  praw.top sub tf lim = yields (post :: posts) (praw.Fails (Exception msg)) ->
  fst (get_top_posts env self n lim tf w) = Ok [] /\
  fst (get_top_posts env self n lim tf w)
  <> Ok (map (post_data env n) (post :: posts)).
Proof.
  intros Hs Ht.
  destruct (get_top_posts_fails env self n lim tf sub (post :: posts) msg Hs Ht)
    as (str_e & Hf & _).
  rewrite Hf. simpl. split; [reflexivity | discriminate].
Qed.

Lemma get_top_posts_no_partial_result_witness :
  praw.subreddit (reddit Sample.scraper) "flaky" = Ok Sample.flaky /\
  praw.top Sample.flaky "week" 25
  = yields [Sample.link_post] (praw.Fails (Exception "received 503 HTTP response")) /\
  fst (get_top_posts Sample.env Sample.scraper "flaky" 25 "week" Sample.w0) = Ok [].
Proof.
  split; [reflexivity | split; [reflexivity|]].
  apply (proj1 (get_top_posts_no_partial_result Sample.env Sample.scraper
                  "flaky" 25 "week" Sample.flaky Sample.link_post []
                  "received 503 HTTP response" Sample.w0 eq_refl eq_refl)).
Defined.

(** ** The batch aggregator *)

Section Aggregator.

Variables (env : Env) (self : RedditScraper) (lim : Z) (tf : string).

Lemma for_subreddit_concat w names per_forum :
  Forall2 (fetched env self lim tf w) names per_forum ->
  forall all_posts w',
    fst (for_subreddit env self names lim tf all_posts w')
    = Ok (all_posts ++ concat per_forum)%list.
Proof.
  induction 1 as [| n recs names per_forum Hn _ IH]; intros acc w'; simpl.
  - by rewrite app_nil_r.
  - run. unfold fetched in Hn.
    rewrite (get_top_posts_value env self n lim tf w
               (mk_World (stdout w' ++ ["Scraping r/" +:+ n +:+ "..."])
                  (clock w') (fs w'))) in Hn.
    destruct (get_top_posts env self n lim tf _) as [[recs'|e] w1];
      simpl in Hn; [|discriminate].
    injection Hn as ->. rewrite IH. by rewrite <- app_assoc.
Qed.

(** When a fetch lets an error through, so does the loop. *)
Lemma for_subreddit_raises names : forall all_posts w n e,
  In n names ->
  praw.subreddit (reddit self) n = Raise e ->
  exists e', fst (for_subreddit env self names lim tf all_posts w) = Raise e'.
Proof.
  induction names as [|m rest IH]; intros acc w n e Hin Hr; [destruct Hin|].
  simpl. run.
  destruct (get_top_posts env self m lim tf _) as [[recs|e1] w1] eqn:Hg.
  - destruct Hin as [->|Hin].
    + unfold get_top_posts in Hg. run. rewrite Hr in Hg. discriminate.
    + apply (IH _ _ n e Hin Hr).
  - by exists e1.
Qed.

End Aggregator.

(** C2. The collection [scrape_multiple_subreddits] returns is built from
    the concatenation, in the order of the input list, of the lists the
    fetches return: one row per record, in that order, nothing merged or
    dropped.  When every fetch returns the empty list the result is the
    empty DataFrame, returned normally. *)
Theorem scrape_multiple_subreddits_concat env self names lim tf w per_forum :
  Forall2 (fetched env self lim tf w) names per_forum ->
  fst (scrape_multiple_subreddits env self names lim tf w)
  = Ok (pd.from_records (concat per_forum)) /\
  pd.rows (pd.from_records (concat per_forum))
  = map (fun d => map (fun c => default VNaN (dict_get d c))
                      (pd.columns (pd.from_records (concat per_forum))))
        (concat per_forum) /\
  (Forall (fun recs => recs = []) per_forum ->
   fst (scrape_multiple_subreddits env self names lim tf w) = Ok pd.no_data).
Proof.
  intros H.
  assert (Hv : fst (scrape_multiple_subreddits env self names lim tf w)
               = Ok (pd.from_records (concat per_forum))).
  { unfold scrape_multiple_subreddits. run.
    pose proof (for_subreddit_concat env self lim tf w names per_forum H [] w) as Hl.
    destruct (for_subreddit env self names lim tf [] w) as [[all|e] w1];
      simpl in Hl; [|discriminate].
    injection Hl as ->. simpl. destruct (concat per_forum); reflexivity. }
  split; [exact Hv | split; [reflexivity|]].
  intros Hall. rewrite Hv.
  assert (Hc : concat per_forum = []).
  { clear -Hall. induction Hall as [|x l -> _ IH]; simpl; auto. }
  rewrite Hc. reflexivity.
Qed.

Lemma scrape_multiple_subreddits_concat_witness :
  Forall2 (fetched Sample.env Sample.scraper 25 "week" Sample.w0)
    ["coq"; "flaky"; "coq"]
    [ map (post_data Sample.env "coq") [Sample.link_post; Sample.text_post];
      [];
      map (post_data Sample.env "coq") [Sample.link_post; Sample.text_post] ] /\
  fst (scrape_multiple_subreddits Sample.env Sample.scraper ["coq"; "flaky"; "coq"]
         25 "week" Sample.w0)
  = Ok (pd.from_records
          (map (post_data Sample.env "coq")
             [Sample.link_post; Sample.text_post; Sample.link_post; Sample.text_post])).
Proof.
  assert (H : Forall2 (fetched Sample.env Sample.scraper 25 "week" Sample.w0)
    ["coq"; "flaky"; "coq"]
    [ map (post_data Sample.env "coq") [Sample.link_post; Sample.text_post];
      [];
      map (post_data Sample.env "coq") [Sample.link_post; Sample.text_post] ]).
  { repeat constructor. }
  split; [exact H|].
  apply (proj1 (scrape_multiple_subreddits_concat Sample.env Sample.scraper
                  ["coq"; "flaky"; "coq"] 25 "week" Sample.w0 _ H)).
Defined.

(** ** Strings: digits, separators, suffixes *)

Lemma digit_char_cases n :
  exists k : nat, (k < 10)%nat /\ PyStr.digit_char n = ascii_of_nat (48 + k).
Proof.
  exists (Z.to_nat (n mod 10)). split; [|reflexivity].
  pose proof (Z.mod_pos_bound n 10). lia.
Qed.

Lemma digit_char_is_digit n : PyStr.is_digit (PyStr.digit_char n) = true.
Proof.
  destruct (digit_char_cases n) as (k & Hk & ->).
  do 10 (destruct k as [|k]; [reflexivity|]). lia.
Qed.

Lemma digit_char_not_sep n : negb (PyStr.is_sep (PyStr.digit_char n)) = true.
Proof.
  destruct (digit_char_cases n) as (k & Hk & ->).
  do 10 (destruct k as [|k]; [reflexivity|]). lia.
Qed.

Lemma digit_char_value n : Z.of_nat (nat_of_ascii (PyStr.digit_char n)) - 48 = n mod 10.
Proof.
  unfold PyStr.digit_char. pose proof (Z.mod_pos_bound n 10).
  rewrite nat_ascii_embedding by lia. lia.
Qed.

Lemma strftime_chars dt :
  list_ascii_of_string (strftime dt)
  = [ PyStr.digit_char (year dt / 1000); PyStr.digit_char (year dt / 100);
      PyStr.digit_char (year dt / 10); PyStr.digit_char (year dt);
      PyStr.digit_char (month dt / 10); PyStr.digit_char (month dt);
      PyStr.digit_char (day dt / 10); PyStr.digit_char (day dt);
      "_"%char;
      PyStr.digit_char (hour dt / 10); PyStr.digit_char (hour dt);
      PyStr.digit_char (minute dt / 10); PyStr.digit_char (minute dt);
      PyStr.digit_char (second dt / 10); PyStr.digit_char (second dt) ].
Proof. reflexivity. Qed.

Lemma strftime_shape dt : timestamp_shape (strftime dt) = true.
Proof.
  unfold timestamp_shape. rewrite strftime_chars.
  cbn [forallb]. rewrite !digit_char_is_digit. reflexivity.
Qed.

Lemma list_ascii_of_string_app a b :
  list_ascii_of_string (a +:+ b) = (list_ascii_of_string a ++ list_ascii_of_string b)%list.
Proof. induction a as [|c a IH]; simpl; [reflexivity | by rewrite IH]. Qed.

Lemma no_sep_app a b : no_sep (a +:+ b) = no_sep a && no_sep b.
Proof. unfold no_sep. by rewrite list_ascii_of_string_app, forallb_app. Qed.

Lemma no_sep_strftime dt : no_sep (strftime dt) = true.
Proof.
  unfold no_sep. rewrite strftime_chars. cbn [forallb].
  rewrite !digit_char_not_sep. reflexivity.
Qed.

Lemma no_sep_default_name env w k : no_sep (default_name env w k) = true.
Proof.
  unfold default_name. rewrite !no_sep_app, no_sep_strftime.
  destruct k; reflexivity.
Qed.

Lemma drop_while_all f l : forallb f l = true -> PyStr.drop_while f l = [].
Proof.
  induction l as [|c r IH]; simpl; [reflexivity|].
  intros [-> H]%andb_true_iff. auto.
Qed.

(** A name without ['/'] has no directory part. *)
Lemma dirname_no_sep p : no_sep p = true -> PyStr.dirname p = "".
Proof.
  unfold no_sep, PyStr.dirname. intros H.
  rewrite drop_while_all; [reflexivity|].
  apply forallb_forall. intros c Hc. apply in_rev in Hc.
  by apply (proj1 (forallb_forall _ _) H).
Qed.

Lemma substring_all s : String.substring 0 (String.length s) s = s.
Proof. induction s as [|c s IH]; simpl; [reflexivity | by rewrite IH]. Qed.



Lemma length_append a b :
  String.length (a +:+ b) = (String.length a + String.length b)%nat.
Proof. induction a as [|c a IH]; simpl; [reflexivity | by rewrite IH]. Qed.

Lemma endswith_app p suffix : PyStr.endswith (p +:+ suffix) suffix = true.
Proof.
  unfold PyStr.endswith. apply andb_true_iff. split.
  - apply Nat.leb_le. rewrite length_append. lia.
  - apply String.eqb_eq. rewrite length_append.
    replace (String.length p + String.length suffix - String.length suffix)%nat
      with (String.length p) by lia.
    induction p as [|c p IH]; simpl; [apply substring_all | exact IH].
Qed.


(** ** The frame of a scrape *)

Lemma post_data_keys env n post : dict_keys (post_data env n post) = field_names.
Proof.
  unfold post_data. destruct (praw.is_self post), (praw.author post); reflexivity.
Qed.

(** Looking the columns up in a post dictionary gives its values in
    insertion order. *)
Lemma post_data_row env n post :
  map (fun c => default VNaN (dict_get (post_data env n post) c)) field_names
  = map snd (post_data env n post).
Proof.
  unfold post_data. destruct (praw.is_self post), (praw.author post); reflexivity.
Qed.

Lemma post_data_length env n post :
  length (map snd (post_data env n post)) = length field_names.
Proof. by rewrite <- post_data_row, length_map. Qed.

Lemma first_seen_known seen l :
  Forall (fun k => In k seen) l -> pd.first_seen seen l = [].
Proof.
  induction 1 as [|k l Hk _ IH]; simpl; [reflexivity|].
  replace (existsb (String.eqb k) seen) with true; [exact IH|].
  symmetry. apply existsb_exists. exists k. split; [exact Hk | apply String.eqb_refl].
Qed.

Lemma concat_keys_known (recs : list dict) seen :
  Forall (fun d => Forall (fun k => In k seen) (dict_keys d)) recs ->
  Forall (fun k => In k seen) (concat (map dict_keys recs)).
Proof.
  induction 1 as [|d recs Hd _ IH]; simpl; [constructor|].
  apply Forall_app. by split.
Qed.

Lemma first_seen_field_names l :
  pd.first_seen [] (field_names ++ l)
  = (field_names ++ pd.first_seen (rev field_names) l)%list.
Proof. reflexivity. Qed.

(** The frame built from the records of one or more posts: the eleven
    columns in insertion order and one row of values per record. *)
Lemma from_records_post_data env (srcs : list (string * praw.Submission)) :
  srcs <> [] ->
  pd.from_records (map (fun s => post_data env s.1 s.2) srcs)
  = {| pd.columns := field_names;
       pd.rows := map (fun s => map snd (post_data env s.1 s.2)) srcs |}.
Proof.
  destruct srcs as [|s0 rest]; [congruence | intros _].
  unfold pd.from_records.
  assert (Hcols : pd.first_seen []
            (concat (map dict_keys (map (fun s => post_data env s.1 s.2) (s0 :: rest))))
          = field_names).
  { cbn [map concat]. rewrite post_data_keys, first_seen_field_names.
    rewrite first_seen_known; [apply app_nil_r|].
    apply concat_keys_known. rewrite Forall_map. apply Forall_forall.
    intros s _. rewrite post_data_keys. apply List.Forall_forall.
    intros k Hk. by apply in_rev in Hk. }
  rewrite Hcols. f_equal. rewrite map_map. apply map_ext.
  intros s. apply post_data_row.
Qed.

(** ** The exporter *)

Lemma ensure_dir_ok env p w :
  makedirs_error env (PyStr.dirname p) = None ->
  exists m, ensure_dir env p w = (Ok tt, mk_World (stdout w) (clock w) m).
Proof.
  intros H. unfold ensure_dir.
  destruct (PyStr.truthy (PyStr.dirname p)); run.
  - unfold path_exists.
    destruct (bool_decide (is_Some (fs w !! PyStr.dirname p))); simpl.
    + exists (fs w). by destruct w.
    + unfold makedirs. rewrite H. eauto.
  - exists (fs w). by destruct w.
Qed.

Lemma ensure_dir_no_sep env p w : no_sep p = true -> ensure_dir env p w = (Ok tt, w).
Proof. intros H. unfold ensure_dir. by rewrite (dirname_no_sep p H). Qed.

(** An export to a given path, when the file system raises nothing. *)
Lemma save_as_writes env k df p w :
  pd.empty df = false ->
  makedirs_error env (PyStr.dirname p) = None ->
  write_error env k p = None ->
  exists m,
    save_as k env df (Some p) w
    = (Ok (Some p),
       mk_World (stdout w ++ ["Data saved to " +:+ p]) (clock w)
         (<[p := File k (pd.to_table df false)]> m)).
Proof.
  intros He Hm Hw.
  destruct (ensure_dir_ok env p w Hm) as [m Hd].
  exists m. destruct k; unfold save_as, save_to_excel, save_to_csv;
    rewrite He; run; rewrite Hd; simpl;
    unfold to_excel, to_csv, write_file; rewrite Hw; reflexivity.
Qed.

(** An export without a path, when the write raises nothing. *)
Lemma save_as_default env k df w :
  pd.empty df = false ->
  write_error env k (default_name env w k) = None ->
  save_as k env df None w
  = (Ok (Some (default_name env w k)),
     printed (written w (default_name env w k) k (pd.to_table df false))
       ["Data saved to " +:+ default_name env w k]).
Proof.
  intros He Hw.
  pose proof (ensure_dir_no_sep env _ w (no_sep_default_name env w k)) as Hd.
  destruct k; unfold save_as, save_to_excel, save_to_csv;
    rewrite He; run; unfold default_name, extension in *; rewrite Hd; simpl;
    unfold to_excel, to_csv, write_file; rewrite Hw; reflexivity.
Qed.

(** C6. For an empty DataFrame both exporters print one diagnostic line,
    leave the file system as it is and return [None]. *)
Theorem save_empty_writes_nothing env df output_file w :
  pd.empty df = true ->
  save_to_excel env df output_file w = (Ok None, printed w ["No data to save."]) /\
  save_to_csv env df output_file w = (Ok None, printed w ["No data to save."]) /\
  fs (snd (save_to_excel env df output_file w)) = fs w /\
  fs (snd (save_to_csv env df output_file w)) = fs w.
Proof.
  intros H. unfold save_to_excel, save_to_csv. rewrite H. repeat split.
Qed.

Lemma save_empty_writes_nothing_witness :
  pd.empty pd.no_data = true /\
  save_to_excel Sample.env pd.no_data (Some "out/posts.xlsx") Sample.w0
  = (Ok None, printed Sample.w0 ["No data to save."]) /\
  save_to_csv Sample.env pd.no_data (Some "out/posts.csv") Sample.w0
  = (Ok None, printed Sample.w0 ["No data to save."]).
Proof.
  split; [reflexivity|].
  pose proof (save_empty_writes_nothing Sample.env pd.no_data
                (Some "out/posts.xlsx") Sample.w0 eq_refl) as H1.
  pose proof (save_empty_writes_nothing Sample.env pd.no_data
                (Some "out/posts.csv") Sample.w0 eq_refl) as H2.
  split; [exact (proj1 H1) | exact (proj1 (proj2 H2))].
Defined.

Lemma strftime_fields dt : four_digit_year dt -> timestamp_fields (strftime dt) = dt.
Proof.
  intros (Hy & Hm & Hd & Hh & Hn & Hs).
  assert (E : strftime dt = string_of_list_ascii (list_ascii_of_string (strftime dt)))
    by (symmetry; apply string_of_list_ascii_of_string).
  rewrite strftime_chars in E. rewrite E. clear E.
  unfold timestamp_fields, digits_value.
  cbn [string_of_list_ascii String.substring list_ascii_of_string fold_left].
  rewrite !digit_char_value.
  destruct dt as [y m d h n s]; simpl in *.
  f_equal; Z.div_mod_to_equations; lia.
Qed.

(** C9. Without a destination both exporters write a non-empty frame to
    ["reddit_top_posts_" + timestamp + extension], the timestamp being the
    current local time laid out as [YYYYMMDD_HHMMSS] and the extension
    [.xlsx] for the spreadsheet and [.csv] for delimited text; without
    [--output], [main] takes the spreadsheet exporter with that name. *)
Theorem default_destination env df w :
  let dt := localtime env (clock w) in
  let xlsx := "reddit_top_posts_" +:+ strftime dt +:+ ".xlsx" in
  let csv := "reddit_top_posts_" +:+ strftime dt +:+ ".csv" in
  pd.empty df = false ->
  write_error env pd.Excel xlsx = None ->
  write_error env pd.Csv csv = None ->
  save_to_excel env df None w
  = (Ok (Some xlsx),
     printed (written w xlsx pd.Excel (pd.to_table df false)) ["Data saved to " +:+ xlsx]) /\
  save_to_csv env df None w
  = (Ok (Some csv),
     printed (written w csv pd.Csv (pd.to_table df false)) ["Data saved to " +:+ csv]) /\
  timestamp_shape (strftime dt) = true /\
  (four_digit_year dt -> timestamp_fields (strftime dt) = dt) /\
  save_results env df None w
  = (Ok tt,
     printed (written w xlsx pd.Excel (pd.to_table df false)) ["Data saved to " +:+ xlsx]).
Proof.
  intros dt xlsx csv He Hx Hc.
  pose proof (save_as_default env pd.Excel df w He Hx) as Sx.
  pose proof (save_as_default env pd.Csv df w He Hc) as Sc.
  unfold save_as, default_name, extension in Sx, Sc. fold dt xlsx in Sx. fold dt csv in Sc.
  repeat split; try assumption.
  - apply strftime_shape.
  - apply strftime_fields.
  - unfold save_results. run. by rewrite Sx.
Qed.

Lemma default_destination_witness :
  pd.empty Sample.frame = false /\
  four_digit_year (localtime Sample.env (clock Sample.w0)) /\
  save_to_excel Sample.env Sample.frame None Sample.w0
  = (Ok (Some "reddit_top_posts_20240102_030405.xlsx"),
     printed (written Sample.w0 "reddit_top_posts_20240102_030405.xlsx" pd.Excel
                (pd.to_table Sample.frame false))
       ["Data saved to reddit_top_posts_20240102_030405.xlsx"]) /\
  save_to_csv Sample.env Sample.frame None Sample.w0
  = (Ok (Some "reddit_top_posts_20240102_030405.csv"),
     printed (written Sample.w0 "reddit_top_posts_20240102_030405.csv" pd.Csv
                (pd.to_table Sample.frame false))
       ["Data saved to reddit_top_posts_20240102_030405.csv"]).
Proof.
  split; [reflexivity|].
  split; [vm_compute; intuition discriminate|].
  pose proof (default_destination Sample.env Sample.frame Sample.w0
                eq_refl eq_refl eq_refl) as H.
  split; [exact (proj1 H) | exact (proj1 (proj2 H))].
Defined.

(** C4. Exporting the frame of one or more post records, by either
    exporter, writes a table whose first row holds the eleven field names
    in their fixed order and whose other rows are the records' values in
    that order, one row per record and no row-number column: [N] records
    give [N + 1] rows of eleven cells. *)
Theorem export_header_and_rows env k (srcs : list (string * praw.Submission)) p w :
  let recs := map (fun s => post_data env s.1 s.2) srcs in
  let t := map VStr field_names :: map (map snd) recs in
  srcs <> [] ->
  makedirs_error env (PyStr.dirname p) = None ->
  write_error env k p = None ->
  fst (save_as k env (pd.from_records recs) (Some p) w) = Ok (Some p) /\
  fs (snd (save_as k env (pd.from_records recs) (Some p) w)) !! p = Some (File k t) /\
  length t = S (length srcs) /\
  Forall (fun row => length row = length field_names) t.
Proof.
  intros recs t Hne Hm Hw. subst recs t.
  rewrite (from_records_post_data env srcs Hne).
  set (df := {| pd.columns := field_names; pd.rows := _ |}).
  assert (He : pd.empty df = false) by (destruct srcs; [congruence | reflexivity]).
  destruct (save_as_writes env k df p w He Hm Hw) as [m ->].
  cbn [fst snd fs]. rewrite lookup_insert_eq, !map_map.
  split; [reflexivity | split; [reflexivity | split]].
  - simpl. by rewrite length_map.
  - constructor; [by rewrite length_map|].
    rewrite Forall_map. apply Forall_forall. intros s _. apply post_data_length.
Qed.

Lemma export_header_and_rows_witness :
  [("coq", Sample.link_post); ("coq", Sample.text_post)] <> [] /\
  makedirs_error Sample.env (PyStr.dirname "out/posts.csv") = None /\
  write_error Sample.env pd.Csv "out/posts.csv" = None /\
  fs (snd (save_as pd.Csv Sample.env Sample.frame (Some "out/posts.csv") Sample.w0))
    !! "out/posts.csv"
  = Some (File pd.Csv
            [ map VStr field_names;
              map snd (post_data Sample.env "coq" Sample.link_post);
              map snd (post_data Sample.env "coq" Sample.text_post) ]).
Proof.
  split; [discriminate | split; [reflexivity | split; [reflexivity|]]].
  apply (proj1 (proj2 (export_header_and_rows Sample.env pd.Csv
           [("coq", Sample.link_post); ("coq", Sample.text_post)]
           "out/posts.csv" Sample.w0 ltac:(discriminate) eq_refl eq_refl))).
Defined.

(** ** The choice of the exporter in [main] *)

(** The empty string names no file: [if args.output] is false for it and
    [main] goes on as if [--output] had not been given. *)
Lemma save_results_empty_output env df w :
  save_results env df (Some "") w = save_results env df None w.
Proof. reflexivity. Qed.



(** The files the three destinations of the specification produce. *)
Example save_results_spec_examples :
  (exists t, fs (snd (save_results Sample.env Sample.frame (Some "out.csv") Sample.w0))
             = {[ "out.csv" := File pd.Csv t ]}) /\
  (exists t, fs (snd (save_results Sample.env Sample.frame (Some "out.xlsx") Sample.w0))
             = {[ "out.xlsx" := File pd.Excel t ]}) /\
  (exists t, fs (snd (save_results Sample.env Sample.frame (Some "out.txt") Sample.w0))
             = {[ "out.txt.csv" := File pd.Csv t ]}).
Proof. repeat split; eexists; reflexivity. Qed.

(** ** The exit status *)

Lemma for_post_outcome env n it : forall acc w,
  catchable it = true ->
  (exists recs, for_post env n it acc w = (Ok recs, w)) \/
  (exists msg, for_post env n it acc w = (Raise (Exception msg), w)).
Proof.
  induction it as [| p r IH | [msg|c]]; intros acc w Hc.
  - left. by eexists.
  - rewrite for_post_yield.
    destruct (fromtimestamp_error env (praw.created_utc p)) as [m|].
    + right. by eexists.
    + by apply IH.
  - right. by eexists.
  - discriminate.
Qed.

(** A fetch whose handle is obtained and whose listing raises at most an
    [Exception] returns a list. *)
Lemma get_top_posts_returns env self n lim tf sub w :
  praw.subreddit (reddit self) n = Ok sub ->
  catchable (praw.top sub tf lim) = true ->
  exists recs w', get_top_posts env self n lim tf w = (Ok recs, w').
Proof.
  intros Hs Hc. unfold get_top_posts. run. rewrite Hs.
  destruct (for_post_outcome env n (praw.top sub tf lim) [] w Hc)
    as [[recs ->] | [msg ->]]; simpl; eauto.
Qed.

Lemma for_subreddit_returns env self lim tf names : forall all_posts w,
  (forall n, In n names -> exists sub,
     praw.subreddit (reddit self) n = Ok sub /\
     catchable (praw.top sub tf lim) = true) ->
  exists all w', for_subreddit env self names lim tf all_posts w = (Ok all, w').
Proof.
  induction names as [|n rest IH]; intros acc w H; simpl.
  - run. eauto.
  - destruct (H n (or_introl eq_refl)) as (sub & Hs & Hc). run.
    destruct (get_top_posts_returns env self n lim tf sub
                (mk_World (stdout w ++ ["Scraping r/" +:+ n +:+ "..."]) (clock w) (fs w))
                Hs Hc) as (recs & w1 & ->).
    apply IH. intros m Hm. apply H. by right.
Qed.

Lemma save_as_returns env k df o w :
  (forall d, makedirs_error env d = None) ->
  (forall k p, write_error env k p = None) ->
  exists r w', save_as k env df o w = (Ok r, w').
Proof.
  intros Hm Hw. destruct (pd.empty df) eqn:He.
  - destruct k; unfold save_as, save_to_excel, save_to_csv; rewrite He; run; eauto.
  - destruct o as [p|].
    + destruct (save_as_writes env k df p w He (Hm _) (Hw _ _)) as [m ->]. eauto.
    + rewrite (save_as_default env k df w He (Hw _ _)). eauto.
Qed.

Lemma save_results_returns env df o w :
  (forall d, makedirs_error env d = None) ->
  (forall k p, write_error env k p = None) ->
  exists w', save_results env df o w = (Ok tt, w').
Proof.
  intros Hm Hw. unfold save_results.
  pose proof (fun o w => save_as_returns env pd.Excel df o w Hm Hw) as Hx.
  pose proof (fun o w => save_as_returns env pd.Csv df o w Hm Hw) as Hc.
  unfold save_as in Hx, Hc.
  destruct o as [out|]; [destruct (PyStr.truthy out);
    [destruct (PyStr.endswith out ".xlsx"); [|destruct (PyStr.endswith out ".csv")]|]|];
    run.
  - destruct (Hx (Some out) w) as (r & w' & ->). eauto.
  - destruct (Hc (Some out) w) as (r & w' & ->). eauto.
  - destruct (Hc (Some (out +:+ ".csv"))
                (mk_World (stdout w ++ ["Unsupported output format. Using CSV format."])
                   (clock w) (fs w))) as (r & w' & ->). eauto.
  - destruct (Hx None w) as (r & w' & ->). eauto.
  - destruct (Hx None w) as (r & w' & ->). eauto.
Qed.

(** C3, as stated, fails: [main] has no handler of its own, so an error of
    the file write, or of the call that obtains a forum handle, ends the
    process with a traceback and status 1. *)
Lemma main_uncaught_errors :
  Sample.argv ["coq"] (Some "/srv/posts.csv")
  = [ "--subreddits"; "coq"; "--client-id"; "id"; "--client-secret"; "secret";
      "--output"; "/srv/posts.csv" ] /\
  fst (main Sample.readonly_env (Sample.argv ["coq"] (Some "/srv/posts.csv")) Sample.w0)
  = Raise (Exception "Permission denied") /\
  exit_status
    (fst (main Sample.readonly_env (Sample.argv ["coq"] (Some "/srv/posts.csv")) Sample.w0))
  = 1 /\
  exit_status (fst (main Sample.env (Sample.argv ["random"; "coq"] None) Sample.w0)) = 1.
Proof. repeat split. Qed.

(** C3, amended. When the arguments parse, the client is constructed,
    every forum handle is obtained, the listings raise nothing but
    instances of [Exception] and the file system raises nothing, [main]
    returns normally and the exit status is 0: also when listings fail and
    when nothing was collected. *)
Theorem main_exit_status_zero env argv w args r :
  parse_args env argv = Ok args ->
  praw_Reddit env (client_id args) (client_secret args) (user_agent args) = Ok r ->
  (forall n, In n (subreddits args) -> exists sub,
     praw.subreddit r n = Ok sub /\
     catchable (praw.top sub (time_filter args) (limit args)) = true) ->
  (forall d, makedirs_error env d = None) ->
  (forall k p, write_error env k p = None) ->
  fst (main env argv w) = Ok tt /\ exit_status (fst (main env argv w)) = 0.
Proof.
  intros Hp Hr Hs Hm Hw.
  assert (H : exists w', main env argv w = (Ok tt, w')).
  { unfold main, RedditScraper_init, scrape_multiple_subreddits. run.
    rewrite Hp, Hr.
    destruct (for_subreddit_returns env {| reddit := r |} (limit args) (time_filter args)
                (subreddits args) [] w Hs) as (all & w1 & ->).
    destruct all as [|d all]; simpl.
    - apply (save_results_returns env pd.no_data (output args) _ Hm Hw).
    - apply (save_results_returns env _ (output args) _ Hm Hw). }
  destruct H as [w' ->]. split; reflexivity.
Qed.

Lemma main_exit_status_zero_witness :
  parse_args Sample.env (Sample.argv ["flaky"; "quiet"] (Some "out/posts.csv"))
  = Ok (Sample.args ["flaky"; "quiet"] (Some "out/posts.csv")) /\
  fst (scrape_multiple_subreddits Sample.env Sample.scraper ["flaky"; "quiet"] 25 "week"
         Sample.w0) = Ok pd.no_data /\
  exit_status
    (fst (main Sample.env (Sample.argv ["flaky"; "quiet"] (Some "out/posts.csv")) Sample.w0))
  = 0.
Proof.
  split; [reflexivity | split; [reflexivity|]].
  refine (proj2 (main_exit_status_zero Sample.env
            (Sample.argv ["flaky"; "quiet"] (Some "out/posts.csv")) Sample.w0
            (Sample.args ["flaky"; "quiet"] (Some "out/posts.csv")) Sample.client
            eq_refl eq_refl _ (fun _ => eq_refl) (fun _ _ => eq_refl))).
  intros n [<- | [<- | []]].
  - exists Sample.flaky. split; reflexivity.
  - exists Sample.quiet. split; reflexivity.
Defined.

(** * Further properties of the script *)

(** ** The fetcher: records and effects *)

Lemma for_post_records env n it : forall acc w recs w',
  for_post env n it acc w = (Ok recs, w') ->
  exists posts, recs = (acc ++ map (post_data env n) posts)%list.
Proof.
  induction it as [| p r IH | e]; intros acc w recs w' H.
  - exists []. simpl. rewrite app_nil_r. by inversion H.
  - rewrite for_post_yield in H.
    destruct (fromtimestamp_error env (praw.created_utc p)); [discriminate|].
    destruct (IH _ _ _ _ H) as [posts ->]. exists (p :: posts).
    by rewrite <- app_assoc.
  - discriminate.
Qed.

Lemma get_top_posts_records env self n lim tf w recs w' :
  get_top_posts env self n lim tf w = (Ok recs, w') ->
  exists posts, recs = map (post_data env n) posts.
Proof.
  unfold get_top_posts. run.
  destruct (praw.subreddit (reddit self) n) as [sub|e]; [|discriminate].
  destruct (for_post env n (praw.top sub tf lim) [] w) as [[a|[m|c]] w1] eqn:E;
    simpl; intros H; inversion H; subst.
  - apply (for_post_records _ _ _ _ _ _ _ E).
  - by exists [].
Qed.

Lemma get_top_posts_effects env self n lim tf w r w' :
  get_top_posts env self n lim tf w = (r, w') ->
  clock w' = clock w /\ fs w' = fs w /\
  match r with
  | Ok _ => exists line, stdout w' = (stdout w ++ [line])%list
  | Raise _ => w' = w
  end.
Proof.
  unfold get_top_posts. run.
  destruct (praw.subreddit (reddit self) n) as [sub|e].
  - pose proof (for_post_world env n (praw.top sub tf lim) [] w) as Hw.
    destruct (for_post env n (praw.top sub tf lim) [] w) as [[a|[m|c]] w1];
      simpl in *; subst w1; intros H; inversion H; subst; simpl; eauto.
  - intros H. inversion H; subst. auto.
Qed.

(** X1. When the handle is obtained, the listing ends normally and the
    creation time of every post converts, the fetch returns one record per
    post, in the order of the listing, and prints the number of posts
    scraped. *)
Theorem get_top_posts_in_listing_order env self n lim tf sub posts w :
  praw.subreddit (reddit self) n = Ok sub ->
  praw.top sub tf lim = yields posts praw.Exhausted ->
  Forall (convertible env) posts ->
  fst (get_top_posts env self n lim tf w) = Ok (map (post_data env n) posts) /\
  stdout (snd (get_top_posts env self n lim tf w))
  = (stdout w ++ ["Successfully scraped " +:+ pretty (length posts)
                  +:+ " posts from r/" +:+ n])%list.
Proof.
  intros Hs Ht Hc.
  by rewrite (get_top_posts_exhausted env self n lim tf sub posts w Hs Ht Hc).
Qed.

Lemma get_top_posts_in_listing_order_witness :
  praw.subreddit (reddit Sample.scraper) "coq" = Ok Sample.healthy /\
  praw.top Sample.healthy "week" 25
  = yields [Sample.link_post; Sample.text_post] praw.Exhausted /\
  Forall (convertible Sample.env) [Sample.link_post; Sample.text_post] /\
  fst (get_top_posts Sample.env Sample.scraper "coq" 25 "week" Sample.w0)
  = Ok [post_data Sample.env "coq" Sample.link_post;
        post_data Sample.env "coq" Sample.text_post].
Proof.
  assert (Hc : Forall (convertible Sample.env) [Sample.link_post; Sample.text_post])
    by (repeat constructor).
  split; [reflexivity | split; [reflexivity | split; [exact Hc|]]].
  apply (proj1 (get_top_posts_in_listing_order Sample.env Sample.scraper "coq" 25
                  "week" Sample.healthy [Sample.link_post; Sample.text_post]
                  Sample.w0 eq_refl eq_refl Hc)).
Defined.

(** X2. A fetch never touches the file system or the clock.  When it
    returns it has printed exactly one line; when it lets an error
    through it has printed nothing. *)
Theorem get_top_posts_only_prints env self n lim tf w r w' :
  get_top_posts env self n lim tf w = (r, w') ->
  clock w' = clock w /\ fs w' = fs w /\
  (forall recs, r = Ok recs -> exists line, stdout w' = (stdout w ++ [line])%list) /\
  (forall e, r = Raise e -> w' = w).
Proof.
  intros H. destruct (get_top_posts_effects _ _ _ _ _ _ _ _ H) as (Hc & Hf & Hr).
  repeat split; try assumption.
  - intros recs ->. exact Hr.
  - intros e ->. exact Hr.
Qed.

Lemma get_top_posts_only_prints_witness :
  get_top_posts Sample.env Sample.scraper "flaky" 25 "week" Sample.w0
  = (Ok [], printed Sample.w0 ["Error scraping r/flaky: received 503 HTTP response"]) /\
  fs (printed Sample.w0 ["Error scraping r/flaky: received 503 HTTP response"])
  = fs Sample.w0.
Proof.
  split; [reflexivity|].
  apply (proj1 (proj2 (get_top_posts_only_prints Sample.env Sample.scraper "flaky" 25
                         "week" Sample.w0 _ _ eq_refl))).
Defined.

(** X3. Every record a fetch returns has the eleven keys in their fixed
    order and carries the requested forum name under ["subreddit"]. *)
Theorem get_top_posts_records_of_forum env self n lim tf w recs :
  fst (get_top_posts env self n lim tf w) = Ok recs ->
  Forall (fun d => dict_keys d = field_names /\
                   dict_get d "subreddit" = Some (VStr n)) recs.
Proof.
  intros H.
  destruct (get_top_posts env self n lim tf w) as [r w'] eqn:E. simpl in H. subst r.
  destruct (get_top_posts_records _ _ _ _ _ _ _ _ E) as [posts ->].
  rewrite Forall_map. apply List.Forall_forall. intros p _. split.
  - apply post_data_keys.
  - unfold post_data. destruct (praw.is_self p), (praw.author p); reflexivity.
Qed.

Lemma get_top_posts_records_of_forum_witness :
  fst (get_top_posts Sample.env Sample.scraper "coq" 25 "week" Sample.w0)
  = Ok [post_data Sample.env "coq" Sample.link_post;
        post_data Sample.env "coq" Sample.text_post] /\
  Forall (fun d => dict_keys d = field_names /\
                   dict_get d "subreddit" = Some (VStr "coq"))
    [post_data Sample.env "coq" Sample.link_post;
     post_data Sample.env "coq" Sample.text_post].
Proof.
  split; [reflexivity|].
  apply (get_top_posts_records_of_forum Sample.env Sample.scraper "coq" 25 "week"
           Sample.w0 _ eq_refl).
Defined.

(** ** The aggregator: time, output and failure *)

Lemma for_subreddit_effects env self lim tf names : forall acc w all w',
  for_subreddit env self names lim tf acc w = (Ok all, w') ->
  clock w' = clock w + 2 * Z.of_nat (length names) /\ fs w' = fs w /\
  exists srcs : list (string * praw.Submission),
    all = (acc ++ map (fun s => post_data env s.1 s.2) srcs)%list.
Proof.
  induction names as [|n rest IH]; intros acc w all w' H; simpl in H.
  - run. inversion H; subst. split; [simpl; lia | split; [reflexivity|]].
    exists []. simpl. by rewrite app_nil_r.
  - run.
    destruct (get_top_posts env self n lim tf _) as [[recs|e] w1] eqn:G;
      [|discriminate].
    destruct (get_top_posts_effects _ _ _ _ _ _ _ _ G) as (Hc & Hf & _).
    destruct (get_top_posts_records _ _ _ _ _ _ _ _ G) as [posts ->].
    apply IH in H as (Hc' & Hf' & srcs & ->). simpl in *.
    split; [rewrite Hc', Hc; lia | split; [by rewrite Hf', Hf|]].
    exists (map (pair n) posts ++ srcs)%list.
    rewrite map_app, map_map, app_assoc. reflexivity.
Qed.

(** X4. A batch that returns has slept two seconds per forum name,
    whether the forum's fetch succeeded or not, and has left the file
    system as it was. *)
Theorem scrape_multiple_subreddits_sleeps env self names lim tf w df w' :
  scrape_multiple_subreddits env self names lim tf w = (Ok df, w') ->
  clock w' = clock w + 2 * Z.of_nat (length names) /\ fs w' = fs w.
Proof.
  unfold scrape_multiple_subreddits. run.
  destruct (for_subreddit env self names lim tf [] w) as [[all|e] w1] eqn:E;
    [|discriminate].
  destruct (for_subreddit_effects _ _ _ _ _ _ _ _ _ E) as (Hc & Hf & _).
  destruct all; simpl; intros H; inversion H; subst; simpl; auto.
Qed.

Lemma scrape_multiple_subreddits_sleeps_witness :
  fst (scrape_multiple_subreddits Sample.env Sample.scraper ["coq"; "flaky"; "quiet"]
         25 "week" Sample.w0) = Ok Sample.frame /\
  clock (snd (scrape_multiple_subreddits Sample.env Sample.scraper
                ["coq"; "flaky"; "quiet"] 25 "week" Sample.w0))
  = clock Sample.w0 + 6.
Proof.
  split; [reflexivity|].
  apply (proj1 (scrape_multiple_subreddits_sleeps Sample.env Sample.scraper
                  ["coq"; "flaky"; "quiet"] 25 "week" Sample.w0 Sample.frame _ eq_refl)).
Defined.

(** X5. The frame a batch returns is either the frame without columns,
    announced by the line "No posts were collected." printed last, or a
    non-empty frame with the eleven field names as columns and eleven
    cells in every row. *)
Theorem scrape_multiple_subreddits_frame env self names lim tf w df w' :
  scrape_multiple_subreddits env self names lim tf w = (Ok df, w') ->
  (df = pd.no_data /\
   exists out, stdout w' = (out ++ ["No posts were collected."])%list) \/
  (pd.empty df = false /\ pd.columns df = field_names /\
   Forall (fun row => length row = length field_names) (pd.rows df)).
Proof.
  unfold scrape_multiple_subreddits. run.
  destruct (for_subreddit env self names lim tf [] w) as [[all|e] w1] eqn:E;
    [|discriminate].
  destruct (for_subreddit_effects _ _ _ _ _ _ _ _ _ E) as (_ & _ & srcs & Hs).
  simpl in Hs. destruct all as [|d all]; simpl; intros H; inversion H; subst.
  - left. split; [reflexivity|]. by eexists.
  - right. rewrite Hs.
    assert (Hne : srcs <> []) by (intros ->; discriminate).
    rewrite (from_records_post_data env srcs Hne). simpl.
    split; [destruct srcs; [congruence | reflexivity] | split; [reflexivity|]].
    rewrite Forall_map. apply List.Forall_forall. intros s _. apply post_data_length.
Qed.

Lemma scrape_multiple_subreddits_frame_witness :
  scrape_multiple_subreddits Sample.env Sample.scraper ["coq"] 25 "week" Sample.w0
  = (Ok Sample.frame,
     slept (printed Sample.w0
              ["Scraping r/coq..."; "Successfully scraped 2 posts from r/coq"]) 2) /\
  ((Sample.frame = pd.no_data /\
    exists out,
      stdout (slept (printed Sample.w0
                ["Scraping r/coq..."; "Successfully scraped 2 posts from r/coq"]) 2)
      = (out ++ ["No posts were collected."])%list) \/
   (pd.empty Sample.frame = false /\ pd.columns Sample.frame = field_names /\
    Forall (fun row => length row = length field_names) (pd.rows Sample.frame))).
Proof.
  split; [reflexivity|].
  apply (scrape_multiple_subreddits_frame Sample.env Sample.scraper ["coq"] 25 "week"
           Sample.w0 _ _ eq_refl).
Defined.

Lemma for_subreddit_handle_error env self lim tf n e after after' :
  praw.subreddit (reddit self) n = Raise e ->
  forall before acc w,
    for_subreddit env self (before ++ n :: after) lim tf acc w
    = for_subreddit env self (before ++ n :: after') lim tf acc w /\
    exists e' w', for_subreddit env self (before ++ n :: after) lim tf acc w
                  = (Raise e', w').
Proof.
  intros Hr. induction before as [|m before IH]; intros acc w; simpl; run.
  - unfold get_top_posts. run. rewrite Hr. simpl. eauto.
  - destruct (get_top_posts env self m lim tf _) as [[recs|e1] w1]; [apply IH | eauto].
Qed.

(** X6. A forum whose handle call raises makes the whole batch raise: no
    frame is returned, and the forums listed after it play no part in the
    outcome. *)
Theorem scrape_multiple_subreddits_handle_error env self lim tf n e before after after' w :
  praw.subreddit (reddit self) n = Raise e ->
  (exists e', fst (scrape_multiple_subreddits env self (before ++ n :: after) lim tf w)
              = Raise e') /\
  scrape_multiple_subreddits env self (before ++ n :: after) lim tf w
  = scrape_multiple_subreddits env self (before ++ n :: after') lim tf w.
Proof.
  intros Hr. unfold scrape_multiple_subreddits. run.
  destruct (for_subreddit_handle_error env self lim tf n e after after' Hr before [] w)
    as (Heq & e' & w1 & Hb).
  rewrite <- Heq, Hb. simpl. eauto.
Qed.

Lemma scrape_multiple_subreddits_handle_error_witness :
  praw.subreddit (reddit Sample.scraper) "random" = Raise (Exception "connection refused") /\
  scrape_multiple_subreddits Sample.env Sample.scraper (["coq"] ++ "random" :: ["flaky"])
    25 "week" Sample.w0
  = scrape_multiple_subreddits Sample.env Sample.scraper (["coq"] ++ "random" :: [])
      25 "week" Sample.w0.
Proof.
  split; [reflexivity|].
  apply (proj2 (scrape_multiple_subreddits_handle_error Sample.env Sample.scraper 25
                  "week" "random" (Exception "connection refused") ["coq"] ["flaky"] []
                  Sample.w0 eq_refl)).
Defined.

(** ** The exporters: what they change and what they return *)

Lemma mkdir_preserves (m : gmap string node) d q :
  is_Some (m !! q) -> is_Some (mkdir m d !! q).
Proof.
  intros H. unfold mkdir. destruct (m !! d) eqn:E; [exact H|].
  destruct (decide (d = q)) as [->|Hne].
  - rewrite lookup_insert_eq. eauto.
  - by rewrite lookup_insert_ne.
Qed.

Lemma foldl_mkdir_preserves l : forall (m : gmap string node) q,
  is_Some (m !! q) -> is_Some (foldl mkdir m l !! q).
Proof.
  induction l as [|d l IH]; intros m q H; simpl; [exact H|].
  apply IH. by apply mkdir_preserves.
Qed.

Lemma foldl_mkdir_in l : forall (m : gmap string node) q,
  In q l -> is_Some (foldl mkdir m l !! q).
Proof.
  induction l as [|d l IH]; intros m q Hin; simpl; [destruct Hin|].
  destruct Hin as [->|Hin]; [|by apply IH].
  apply foldl_mkdir_preserves. unfold mkdir.
  destruct (m !! q) eqn:E; [rewrite E; eauto | rewrite lookup_insert_eq; eauto].
Qed.

Lemma foldl_mkdir_only_dirs l : forall (m : gmap string node) q,
  foldl mkdir m l !! q = m !! q \/ foldl mkdir m l !! q = Some Dir.
Proof.
  induction l as [|d l IH]; intros m q; simpl; [by left|].
  destruct (IH (mkdir m d) q) as [H|H]; [|by right].
  rewrite H. unfold mkdir. destruct (m !! d) eqn:E; [by left|].
  destruct (decide (d = q)) as [->|Hne].
  - right. apply lookup_insert_eq.
  - left. by apply lookup_insert_ne.
Qed.

Lemma ensure_dir_exact env p w :
  makedirs_error env (PyStr.dirname p) = None ->
  ensure_dir env p w
  = (Ok tt, mk_World (stdout w) (clock w) (dirs_ensured (fs w) (PyStr.dirname p))).
Proof.
  intros H. unfold ensure_dir, dirs_ensured.
  destruct (PyStr.truthy (PyStr.dirname p)); run; simpl.
  - unfold path_exists.
    destruct (bool_decide (is_Some (fs w !! PyStr.dirname p))); simpl.
    + by destruct w.
    + unfold makedirs. by rewrite H.
  - by destruct w.
Qed.

Lemma save_as_exact env k df p w :
  pd.empty df = false ->
  makedirs_error env (PyStr.dirname p) = None ->
  write_error env k p = None ->
  save_as k env df (Some p) w
  = (Ok (Some p),
     mk_World (stdout w ++ ["Data saved to " +:+ p]) (clock w)
       (<[p := File k (pd.to_table df false)]>
          (dirs_ensured (fs w) (PyStr.dirname p)))).
Proof.
  intros He Hm Hw.
  pose proof (ensure_dir_exact env p w Hm) as Hd.
  destruct k; unfold save_as, save_to_excel, save_to_csv;
    rewrite He; run; rewrite Hd; simpl;
    unfold to_excel, to_csv, write_file; rewrite Hw; reflexivity.
Qed.

(** X7. After an export to a path with a directory part, that directory
    exists, and every path that existed before still exists. *)
Theorem save_creates_parent_directory env k df p w :
  pd.empty df = false ->
  makedirs_error env (PyStr.dirname p) = None ->
  write_error env k p = None ->
  proper_dir (PyStr.dirname p) = true ->
  is_Some (fs (snd (save_as k env df (Some p) w)) !! PyStr.dirname p) /\
  (forall q, is_Some (fs w !! q) -> is_Some (fs (snd (save_as k env df (Some p) w)) !! q)).
Proof.
  intros He Hm Hw Hd. rewrite (save_as_exact env k df p w He Hm Hw). cbn [snd fs].
  assert (Hkeep : forall q, is_Some (fs w !! q) ->
            is_Some (dirs_ensured (fs w) (PyStr.dirname p) !! q)).
  { intros q Hq. unfold dirs_ensured.
    destruct (_ && _); [by apply foldl_mkdir_preserves | exact Hq]. }
  assert (Hdir : is_Some (dirs_ensured (fs w) (PyStr.dirname p) !! PyStr.dirname p)).
  { unfold dirs_ensured.
    destruct (bool_decide (is_Some (fs w !! PyStr.dirname p))) eqn:Ex.
    - rewrite andb_false_r. by apply bool_decide_eq_true in Ex.
    - rewrite andb_true_r. destruct (PyStr.truthy (PyStr.dirname p)) eqn:Ht.
      + apply foldl_mkdir_in. unfold proper_dir in Hd.
        apply negb_true_iff in Hd. cbn [ancestors]. rewrite Hd. by left.
      + destruct (PyStr.dirname p); [discriminate Hd | discriminate Ht]. }
  assert (Hins : forall (m : gmap string node) q,
            is_Some (m !! q) -> is_Some (<[p := File k (pd.to_table df false)]> m !! q)).
  { intros m q Hq. destruct (decide (p = q)) as [->|Hne].
    - rewrite lookup_insert_eq. eauto.
    - by rewrite lookup_insert_ne. }
  split; [by apply Hins | intros q Hq; by apply Hins, Hkeep].
Qed.

Lemma save_creates_parent_directory_witness :
  pd.empty Sample.frame = false /\
  proper_dir (PyStr.dirname "out/2024/posts.csv") = true /\
  PyStr.dirname "out/2024/posts.csv" = "out/2024" /\
  is_Some (fs (snd (save_as pd.Csv Sample.env Sample.frame (Some "out/2024/posts.csv")
                      Sample.w0)) !! PyStr.dirname "out/2024/posts.csv").
Proof.
  split; [reflexivity | split; [reflexivity | split; [reflexivity|]]].
  apply (proj1 (save_creates_parent_directory Sample.env pd.Csv Sample.frame
                  "out/2024/posts.csv" Sample.w0 eq_refl eq_refl eq_refl eq_refl)).
Defined.

(** X9. The exporters catch no file-system error.  An error of the file
    write is raised to the caller: no path is returned and no "Data saved"
    line is printed.  So is an error of the directory creation, and then
    no file has been written: every path is as it was or has become a
    directory created on the way. *)
Theorem save_errors_propagate env k df p w e :
  pd.empty df = false ->
  (makedirs_error env (PyStr.dirname p) = None ->
   write_error env k p = Some e ->
   fst (save_as k env df (Some p) w) = Raise e /\
   stdout (snd (save_as k env df (Some p) w)) = stdout w) /\
  (PyStr.truthy (PyStr.dirname p) = true ->
   fs w !! PyStr.dirname p = None ->
   makedirs_error env (PyStr.dirname p) = Some e ->
   fst (save_as k env df (Some p) w) = Raise e /\
   stdout (snd (save_as k env df (Some p) w)) = stdout w /\
   forall q, fs (snd (save_as k env df (Some p) w)) !! q = fs w !! q \/
             fs (snd (save_as k env df (Some p) w)) !! q = Some Dir).
Proof.
  intros He. split.
  - intros Hm Hw. pose proof (ensure_dir_exact env p w Hm) as Hd.
    destruct k; unfold save_as, save_to_excel, save_to_csv;
      rewrite He; run; rewrite Hd; simpl;
      unfold to_excel, to_csv, write_file; rewrite Hw; split; reflexivity.
  - intros Ht Hx Hm.
    assert (Hd : exists l,
              ensure_dir env p w
              = (Raise e, mk_World (stdout w) (clock w) (foldl mkdir (fs w) l))).
    { unfold ensure_dir. rewrite Ht. run. unfold path_exists. rewrite Hx.
      simpl. unfold makedirs. rewrite Hm. by eexists. }
    destruct Hd as [l Hd].
    destruct k; unfold save_as, save_to_excel, save_to_csv;
      rewrite He; run; rewrite Hd; simpl;
      (split; [reflexivity | split; [reflexivity|]]);
      intros q; apply foldl_mkdir_only_dirs.
Qed.

Lemma save_errors_propagate_witness :
  pd.empty Sample.frame = false /\
  (makedirs_error Sample.readonly_env (PyStr.dirname "/srv/posts.xlsx") = None /\
   write_error Sample.readonly_env pd.Excel "/srv/posts.xlsx"
   = Some (Exception "Permission denied") /\
   fst (save_as pd.Excel Sample.readonly_env Sample.frame (Some "/srv/posts.xlsx")
          Sample.w0) = Raise (Exception "Permission denied") /\
   stdout (snd (save_as pd.Excel Sample.readonly_env Sample.frame
                  (Some "/srv/posts.xlsx") Sample.w0)) = stdout Sample.w0) /\
  (PyStr.truthy (PyStr.dirname "out/2024/posts.csv") = true /\
   fs Sample.w0 !! PyStr.dirname "out/2024/posts.csv" = None /\
   makedirs_error Sample.quota_env (PyStr.dirname "out/2024/posts.csv")
   = Some (Exception "Disk quota exceeded") /\
   fst (save_as pd.Csv Sample.quota_env Sample.frame (Some "out/2024/posts.csv")
          Sample.w0) = Raise (Exception "Disk quota exceeded") /\
   fs (snd (save_as pd.Csv Sample.quota_env Sample.frame (Some "out/2024/posts.csv")
              Sample.w0)) !! "out" = Some Dir).
Proof.
  split; [reflexivity | split].
  - split; [reflexivity | split; [reflexivity|]].
    apply (proj1 (save_errors_propagate Sample.readonly_env pd.Excel Sample.frame
                    "/srv/posts.xlsx" Sample.w0 (Exception "Permission denied") eq_refl)
             eq_refl eq_refl).
  - split; [reflexivity | split; [reflexivity | split; [reflexivity|]]].
    split; [|reflexivity].
    apply (proj2 (save_errors_propagate Sample.quota_env pd.Csv Sample.frame
                    "out/2024/posts.csv" Sample.w0 (Exception "Disk quota exceeded")
                    eq_refl)
             eq_refl eq_refl eq_refl).
Defined.

(** X10. A path returned by an exporter names a file that holds the
    frame's table in the exporter's format, and the last line printed
    reports that path. *)
Theorem save_returned_path_is_written env k df o w p w' :
  save_as k env df o w = (Ok (Some p), w') ->
  fs w' !! p = Some (File k (pd.to_table df false)) /\
  (exists out, stdout w' = (out ++ ["Data saved to " +:+ p])%list) /\
  pd.empty df = false /\
  (forall f, o = Some f -> p = f).
Proof.
  destruct (pd.empty df) eqn:He.
  - destruct k; unfold save_as, save_to_excel, save_to_csv; rewrite He; run;
      discriminate.
  - destruct k; unfold save_as, save_to_excel, save_to_csv; rewrite He;
      destruct o as [f|]; run;
      match goal with |- context [ensure_dir env ?x ?y] =>
        destruct (ensure_dir env x y) as [[[]|e1] w1]
      end; simpl; try discriminate;
      unfold to_excel, to_csv, write_file;
      match goal with |- context [write_error env ?a ?b] =>
        destruct (write_error env a b)
      end; simpl; try discriminate;
      intros H; inversion H; subst; simpl;
      (split; [apply lookup_insert_eq | split; [by eexists | split; [reflexivity|]]]);
      intros f' Hf; congruence.
Qed.

Lemma save_returned_path_is_written_witness :
  save_as pd.Csv Sample.env Sample.frame (Some "out/posts.csv") Sample.w0
  = (Ok (Some "out/posts.csv"),
     snd (save_as pd.Csv Sample.env Sample.frame (Some "out/posts.csv") Sample.w0)) /\
  fs (snd (save_as pd.Csv Sample.env Sample.frame (Some "out/posts.csv") Sample.w0))
    !! "out/posts.csv"
  = Some (File pd.Csv (pd.to_table Sample.frame false)).
Proof.
  split; [reflexivity|].
  apply (proj1 (save_returned_path_is_written Sample.env pd.Csv Sample.frame
                  (Some "out/posts.csv") Sample.w0 "out/posts.csv" _ eq_refl)).
Defined.

(** ** The run as a whole *)

Lemma append_assoc a b c : a +:+ (b +:+ c) = (a +:+ b) +:+ c.
Proof.
  induction a as [|x a IH]; [reflexivity|].
  change (String x (a +:+ (b +:+ c)) = String x ((a +:+ b) +:+ c)).
  by rewrite IH.
Qed.

Lemma save_results_writes env df o w :
  pd.empty df = false ->
  (forall d, makedirs_error env d = None) ->
  (forall k p, write_error env k p = None) ->
  exists k p,
    fst (save_results env df o w) = Ok tt /\
    fs (snd (save_results env df o w)) !! p = Some (File k (pd.to_table df false)) /\
    PyStr.endswith p (extension k) = true.
Proof.
  intros He Hm Hw.
  pose proof (fun p w => save_as_exact env pd.Excel df p w He (Hm _) (Hw _ _)) as Sx.
  pose proof (fun p w => save_as_exact env pd.Csv df p w He (Hm _) (Hw _ _)) as Sc.
  pose proof (save_as_default env pd.Excel df w He (Hw _ _)) as Sd.
  unfold save_as in Sx, Sc, Sd.
  assert (Hdef : exists k p,
            fst ((save_to_excel env df None;; mret tt) w) = Ok tt /\
            fs (snd ((save_to_excel env df None;; mret tt) w)) !! p
            = Some (File k (pd.to_table df false)) /\
            PyStr.endswith p (extension k) = true).
  { exists pd.Excel, (default_name env w pd.Excel). run. rewrite Sd. simpl.
    split; [reflexivity | split; [apply lookup_insert_eq|]].
    unfold default_name. rewrite append_assoc. apply endswith_app. }
  unfold save_results.
  destruct o as [out|]; [|exact Hdef].
  destruct (PyStr.truthy out); [|exact Hdef].
  destruct (PyStr.endswith out ".xlsx") eqn:Ex;
    [|destruct (PyStr.endswith out ".csv") eqn:Ec].
  - exists pd.Excel, out. run. rewrite Sx. simpl.
    split; [reflexivity | split; [apply lookup_insert_eq | exact Ex]].
  - exists pd.Csv, out. run. rewrite Sc. simpl.
    split; [reflexivity | split; [apply lookup_insert_eq | exact Ec]].
  - exists pd.Csv, (out +:+ ".csv"). run. rewrite Sc. simpl.
    split; [reflexivity | split; [apply lookup_insert_eq | apply endswith_app]].
Qed.

(** X11. Whatever [--output] holds, when a non-empty frame is saved and
    the file system raises nothing, the file written has the extension of
    its format: [.xlsx] for a spreadsheet and [.csv] for delimited text. *)
Theorem save_results_extension_matches_format env df o w :
  pd.empty df = false ->
  (forall d, makedirs_error env d = None) ->
  (forall k p, write_error env k p = None) ->
  exists k p,
    fst (save_results env df o w) = Ok tt /\
    fs (snd (save_results env df o w)) !! p = Some (File k (pd.to_table df false)) /\
    PyStr.endswith p (extension k) = true.
Proof. intros He Hm Hw. by apply save_results_writes. Qed.

Lemma save_results_extension_matches_format_witness :
  pd.empty Sample.frame = false /\
  exists k p,
    fst (save_results Sample.env Sample.frame (Some "posts.XLSX") Sample.w0) = Ok tt /\
    fs (snd (save_results Sample.env Sample.frame (Some "posts.XLSX") Sample.w0)) !! p
    = Some (File k (pd.to_table Sample.frame false)) /\
    PyStr.endswith p (extension k) = true.
Proof.
  split; [reflexivity|].
  apply (save_results_extension_matches_format Sample.env Sample.frame
           (Some "posts.XLSX") Sample.w0 eq_refl (fun _ => eq_refl) (fun _ _ => eq_refl)).
Defined.

Lemma save_results_empty env df o w :
  pd.empty df = true ->
  fst (save_results env df o w) = Ok tt /\
  fs (snd (save_results env df o w)) = fs w /\
  exists out, stdout (snd (save_results env df o w)) = (out ++ ["No data to save."])%list.
Proof.
  intros He. unfold save_results, save_to_excel, save_to_csv. rewrite He.
  destruct o as [out|]; [destruct (PyStr.truthy out);
    [destruct (PyStr.endswith out ".xlsx"); [|destruct (PyStr.endswith out ".csv")]|]|];
    run; simpl; (split; [reflexivity | split; [reflexivity | by eexists]]).
Qed.

(** X12. When every forum's fetch returns the empty list, [main] ends
    normally without touching the file system, whatever [--output] holds
    and whether or not the destination could be written; the last line
    printed is "No data to save.". *)
Theorem main_nothing_collected env argv w args r :
  parse_args env argv = Ok args ->
  praw_Reddit env (client_id args) (client_secret args) (user_agent args) = Ok r ->
  Forall (fun n => fetched env {| reddit := r |} (limit args) (time_filter args) w n [])
    (subreddits args) ->
  fst (main env argv w) = Ok tt /\
  fs (snd (main env argv w)) = fs w /\
  exists out, stdout (snd (main env argv w)) = (out ++ ["No data to save."])%list.
Proof.
  intros Hp Hr Hf.
  set (self := {| reddit := r |}) in *.
  assert (H2 : Forall2 (fetched env self (limit args) (time_filter args) w)
                 (subreddits args) (map (fun _ => []) (subreddits args))).
  { induction Hf; simpl; constructor; auto. }
  assert (Hc : forall l : list string, concat (map (fun _ => @nil dict) l) = []).
  { induction l; simpl; auto. }
  pose proof (for_subreddit_concat env self (limit args) (time_filter args) w _ _ H2 [] w)
    as Hv.
  rewrite Hc in Hv. simpl in Hv.
  unfold main, RedditScraper_init, scrape_multiple_subreddits. run.
  rewrite Hp, Hr. fold self.
  destruct (for_subreddit env self (subreddits args) (limit args) (time_filter args) [] w)
    as [[all|e] w1] eqn:E; simpl in Hv; [|discriminate].
  injection Hv as ->.
  destruct (for_subreddit_effects _ _ _ _ _ _ _ _ _ E) as (_ & Hfs & _).
  simpl.
  destruct (save_results_empty env pd.no_data (output args)
              (mk_World (stdout w1 ++ ["No posts were collected."]) (clock w1) (fs w1))
              eq_refl) as (H1 & H3 & H4).
  split; [exact H1 | split; [by rewrite H3 | exact H4]].
Qed.

Lemma main_nothing_collected_witness :
  parse_args Sample.readonly_env (Sample.argv ["flaky"; "quiet"] (Some "/srv/posts.csv"))
  = Ok (Sample.args ["flaky"; "quiet"] (Some "/srv/posts.csv")) /\
  write_error Sample.readonly_env pd.Csv "/srv/posts.csv"
  = Some (Exception "Permission denied") /\
  fst (main Sample.readonly_env (Sample.argv ["flaky"; "quiet"] (Some "/srv/posts.csv"))
         Sample.w0) = Ok tt.
Proof.
  split; [reflexivity | split; [reflexivity|]].
  apply (proj1 (main_nothing_collected Sample.readonly_env
                  (Sample.argv ["flaky"; "quiet"] (Some "/srv/posts.csv")) Sample.w0
                  (Sample.args ["flaky"; "quiet"] (Some "/srv/posts.csv")) Sample.client
                  eq_refl eq_refl ltac:(repeat constructor))).
Defined.

(** X13. When the fetches return at least one record and the file system
    raises nothing, [main] ends normally and leaves a file, named with
    the extension of its format, that holds the table of all fetched
    records in the order of the forum list. *)
Theorem main_saves_all_records env argv w args r per_forum :
  parse_args env argv = Ok args ->
  praw_Reddit env (client_id args) (client_secret args) (user_agent args) = Ok r ->
  Forall2 (fetched env {| reddit := r |} (limit args) (time_filter args) w)
    (subreddits args) per_forum ->
  concat per_forum <> [] ->
  (forall d, makedirs_error env d = None) ->
  (forall k p, write_error env k p = None) ->
  exists k p,
    fst (main env argv w) = Ok tt /\
    fs (snd (main env argv w)) !! p
    = Some (File k (pd.to_table (pd.from_records (concat per_forum)) false)) /\
    PyStr.endswith p (extension k) = true.
Proof.
  intros Hp Hr Hf Hne Hm Hw.
  set (self := {| reddit := r |}) in *.
  pose proof (for_subreddit_concat env self (limit args) (time_filter args) w _ _ Hf [] w)
    as Hv.
  simpl in Hv.
  unfold main, RedditScraper_init, scrape_multiple_subreddits. run.
  rewrite Hp, Hr. fold self.
  destruct (for_subreddit env self (subreddits args) (limit args) (time_filter args) [] w)
    as [[all|e] w1] eqn:E; simpl in Hv; [|discriminate].
  injection Hv as ->.
  destruct (for_subreddit_effects _ _ _ _ _ _ _ _ _ E) as (_ & _ & srcs & Hs).
  simpl in Hs.
  destruct (concat per_forum) as [|d all] eqn:Hc; [congruence|]. simpl.
  apply save_results_writes; [|exact Hm | exact Hw].
  rewrite Hs. assert (Hn : srcs <> []) by (intros ->; discriminate).
  rewrite (from_records_post_data env srcs Hn). by destruct srcs.
Qed.

Lemma main_saves_all_records_witness :
  parse_args Sample.env (Sample.argv ["coq"; "flaky"] (Some "out/posts.txt"))
  = Ok (Sample.args ["coq"; "flaky"] (Some "out/posts.txt")) /\
  concat [[post_data Sample.env "coq" Sample.link_post;
           post_data Sample.env "coq" Sample.text_post]; []] <> [] /\
  exists k p,
    fst (main Sample.env (Sample.argv ["coq"; "flaky"] (Some "out/posts.txt")) Sample.w0)
    = Ok tt /\
    fs (snd (main Sample.env (Sample.argv ["coq"; "flaky"] (Some "out/posts.txt"))
               Sample.w0)) !! p
    = Some (File k (pd.to_table
                      (pd.from_records
                         (concat [[post_data Sample.env "coq" Sample.link_post;
                                   post_data Sample.env "coq" Sample.text_post]; []]))
                      false)) /\
    PyStr.endswith p (extension k) = true.
Proof.
  split; [reflexivity | split; [discriminate|]].
  apply (main_saves_all_records Sample.env
           (Sample.argv ["coq"; "flaky"] (Some "out/posts.txt")) Sample.w0
           (Sample.args ["coq"; "flaky"] (Some "out/posts.txt")) Sample.client
           [[post_data Sample.env "coq" Sample.link_post;
             post_data Sample.env "coq" Sample.text_post]; []]
           eq_refl eq_refl ltac:(repeat constructor) ltac:(discriminate)
           (fun _ => eq_refl) (fun _ _ => eq_refl)).
Defined.
